(** * server.py: the FastAPI wrapper that provisions a Daily room, mints a
    token and starts one bot process per [POST /connect].

    The module is embedded shallowly.  Its two module-level dictionaries
    ([bot_procs], [daily_helpers]), the process environment, the [Popen]
    objects the registry refers to and the log of everything the module
    does to the outside world make up the [World]; every function of the
    module is a computation in a state-and-exception monad over it.  What
    the Daily REST API and the operating system answer is not decided by
    this module: it is an [Env] of oracles that see the log so far. *)

From Stdlib Require Import ZArith String List Lia.
From stdpp Require Import base option list gmap strings pretty.
Import ListNotations.

Local Open Scope string_scope.
Local Open Scope Z_scope.
Local Open Scope list_scope.

(** ** Python values the handlers pass around *)

(** [room.url] and the token are a [str] or [None]. *)
Definition truthy (v : option string) : bool :=
  match v with
  | Some (String _ _) => true
  | Some EmptyString => false
  | None => false
  end.

(** What an f-string prints for [{v}]. *)
Definition py_format (v : option string) : string :=
  match v with
  | Some s => s
  | None => "None"
  end.

#[warnings="-register-all"]
Inductive Json : Type :=
  | JNull
  | JBool (b : bool)
  | JStr (s : string)
  | JObj (fields : list (string * Json)).

(** JSON encoding of a [str]-or-[None] value. *)
Definition json_of (v : option string) : Json :=
  match v with
  | Some s => JStr s
  | None => JNull
  end.

Inductive Body : Type :=
  | JsonBody (j : Json)
  | TextBody (s : string).

Record Response : Type := mkResponse { status : Z; content : Body }.

(** [JSONResponse(content)]: the status code defaults to 200. *)
Definition JSONResponse (j : Json) : Response :=
  {| status := 200; content := JsonBody j |}.

(** ** Exceptions and outcomes *)

Inductive Exc : Type :=
  | HTTPException (status_code : Z) (detail : string)
  | PyError (msg : string).

(** [str(e)], as the f-string of the [except] clause prints it. *)
Definition str_exc (e : Exc) : string :=
  match e with
  | HTTPException c d => pretty c +:+ ": " +:+ d
  | PyError m => m
  end.

(** A call returns, raises, or never comes back. *)
Inductive Outcome (A : Type) : Type :=
  | Ret (a : A)
  | Raise (e : Exc)
  | Hang.
Arguments Ret {A} a.
Arguments Raise {A} e.
Arguments Hang {A}.

(** ** Processes *)

(** The operating system's side of a child process.  [Alive final on_term]:
    still running; [final] is the status it will exit with as things stand
    ([None]: it never exits), [on_term] the status it dies with once it
    receives SIGTERM ([None]: it ignores the signal). *)
Inductive ChildState : Type :=
  | Alive (final on_term : option Z)
  | Exited (code : Z).

(** A [subprocess.Popen] object. *)
Record Popen : Type := mkPopen {
  pid : Z;
  returncode : option Z;
  child : ChildState
}.

Record DailyRESTHelper : Type := mkHelper {
  daily_api_key : string;
  daily_api_url : string;
  aiohttp_session : nat
}.

Record Room : Type := mkRoom { url : option string }.

(** ** The log

    What the module does, in the order it does it: lines printed, calls
    into the Daily REST helper, processes started, signalled and reaped.
    [EvRegister] notes the assignment to [bot_procs], so that its place
    among the other steps can be read off the log. *)

Inductive Event : Type :=
  | EvPrint (line : string)
  | EvSessionOpen (session : nat)
  | EvSessionClose (session : nat)
  | EvCreateRoom
  | EvGetToken (room_url : option string)
  | EvPopen (args : list string) (shell : bool) (bufsize : Z) (cwd : string)
  | EvRegister (key : Z) (room_url : option string)
  | EvKill (target : Z)
  | EvReap (target : Z) (code : Z).

(** ** The world *)

Record World : Type := mkWorld {
  environ : gmap string string;
  daily_helpers : gmap string DailyRESTHelper;
  (* insertion-ordered dict: pid -> (reference to the Popen object, room_url) *)
  bot_procs : list (Z * (nat * option string));
  (* the Popen objects, by reference *)
  objects : list Popen;
  (* the aiohttp sessions: open or closed *)
  sessions : list bool;
  trace : list Event
}.

Definition set_bot_procs (d : list (Z * (nat * option string))) (w : World) : World :=
  {| environ := environ w; daily_helpers := daily_helpers w; bot_procs := d;
     objects := objects w; sessions := sessions w; trace := trace w |}.

Definition set_objects (h : list Popen) (w : World) : World :=
  {| environ := environ w; daily_helpers := daily_helpers w; bot_procs := bot_procs w;
     objects := h; sessions := sessions w; trace := trace w |}.

Definition set_daily_helpers (d : gmap string DailyRESTHelper) (w : World) : World :=
  {| environ := environ w; daily_helpers := d; bot_procs := bot_procs w;
     objects := objects w; sessions := sessions w; trace := trace w |}.

Definition set_sessions (s : list bool) (w : World) : World :=
  {| environ := environ w; daily_helpers := daily_helpers w; bot_procs := bot_procs w;
     objects := objects w; sessions := s; trace := trace w |}.

Definition log (e : Event) (w : World) : World :=
  {| environ := environ w; daily_helpers := daily_helpers w; bot_procs := bot_procs w;
     objects := objects w; sessions := sessions w; trace := trace w ++ [e] |}.

(** The world after a run of logged events. *)
Definition after (evs : list Event) (w : World) : World :=
  fold_left (fun w e => log e w) evs w.

(** The state of the module right after import. *)
Definition initial (env_vars : gmap string string) : World :=
  {| environ := env_vars; daily_helpers := ∅; bot_procs := [];
     objects := []; sessions := []; trace := [] |}.

(** ** The answers of the outside world *)

(** A library call answers with a value, fails with an ordinary Python
    exception (its message is kept), or never answers. *)
Inductive Answer (A : Type) : Type :=
  | Returned (a : A)
  | Failed (msg : string)
  | NoAnswer.
Arguments Returned {A} a.
Arguments Failed {A} msg.
Arguments NoAnswer {A}.

Definition outcome_of {A} (a : Answer A) : Outcome A :=
  match a with
  | Returned v => Ret v
  | Failed msg => Raise (PyError msg)
  | NoAnswer => Hang
  end.

(** What [Popen(...)] meets in the operating system.  [Spawned]: the child
    runs the command (with [shell=True], the shell) and the call returns.
    [ForkFailed]: no child could be made and the call raises an [OSError].
    [ExecFailed]: a child was forked but could not execute (missing [cwd],
    no shell); [Popen] collects its exit status itself and then raises.
    [SpawnBlocked]: the call never returns. *)
Inductive Spawn : Type :=
  | Spawned (pid : Z) (child : ChildState)
  | ForkFailed (msg : string)
  | ExecFailed (msg : string) (pid : Z) (code : Z)
  | SpawnBlocked.

Record Env : Type := mkEnv {
  (* os.path.dirname(os.path.abspath(__file__)) *)
  module_dir : string;
  rest_create_room : DailyRESTHelper -> list Event -> Answer Room;
  rest_get_token : DailyRESTHelper -> list Event -> option string -> Answer (option string);
  (* fork and exec of a command line *)
  os_spawn : list Event -> list string -> string -> Spawn
}.

(** ** The monad *)

Definition M (A : Type) : Type := World -> Outcome A * World.

Definition ret {A} (a : A) : M A := fun w => (Ret a, w).

Definition bind {A B} (m : M A) (k : A -> M B) : M B :=
  fun w =>
    match m w with
    | (Ret a, w') => k a w'
    | (Raise e, w') => (Raise e, w')
    | (Hang, w') => (Hang, w')
    end.

Definition raise {A} (e : Exc) : M A := fun w => (Raise e, w).

Definition emit (e : Event) : M unit := fun w => (Ret tt, log e w).

Definition inspect {A} (f : World -> A) : M A := fun w => (Ret (f w), w).

(** [try: body except Exception as e: handler(e)]. *)
Definition try_except {A} (body : M A) (handler : Exc -> M A) : M A :=
  fun w =>
    match body w with
    | (Raise e, w') => handler e w'
    | r => r
    end.

Notation "'let*' x ':=' m 'in' k" := (bind m (fun x => k))
  (at level 10, x pattern, m at level 100, k at level 200).

Fixpoint for_each {A} (f : A -> M unit) (l : list A) : M unit :=
  match l with
  | [] => ret tt
  | x :: l' => let* _ := f x in for_each f l'
  end.

(** ** Python dict, insertion-ordered *)

Fixpoint dict_get {V} (k : Z) (d : list (Z * V)) : option V :=
  match d with
  | [] => None
  | (k', v) :: d' => if decide (k' = k) then Some v else dict_get k d'
  end.

(** [d[k] = v]: an existing key keeps its place and takes the new value. *)
Fixpoint dict_set {V} (k : Z) (v : V) (d : list (Z * V)) : list (Z * V) :=
  match d with
  | [] => [(k, v)]
  | (k', v') :: d' =>
      if decide (k' = k) then (k, v) :: d' else (k', v') :: dict_set k v d'
  end.

Definition dict_values {V} (d : list (Z * V)) : list V := map snd d.

(** [os.getenv(name)]. *)
Definition getenv (name : string) : M (option string) :=
  inspect (fun w => environ w !! name).

(** [os.getenv(name, default)]. *)
Definition getenv_default (name default : string) : M string :=
  inspect (fun w => match environ w !! name with Some v => v | None => default end).

(** ** subprocess.Popen

    The standard library's process handle, as its documentation describes
    it: [poll()] and [wait()] set and return [returncode]; [send_signal()],
    and with it [terminate()], polls first and does nothing if the process
    has completed.  A handle is a reference into [objects], so that what
    [cleanup()] does to a handle is seen through the registry afterwards. *)

Definition dangling {A} : M A := raise (PyError "dangling reference").

Definition deref (proc : nat) : M Popen :=
  fun w =>
    match objects w !! proc with
    | Some o => (Ret o, w)
    | None => dangling w
    end.

Definition store (proc : nat) (o : Popen) : M unit :=
  fun w => (Ret tt, set_objects (<[proc := o]> (objects w)) w).

(** [Popen.poll()]: a known return code is returned as it is; otherwise the
    child is asked without blocking, and reaped if it has exited. *)
Definition poll (proc : nat) : M (option Z) :=
  let* o := deref proc in
  match returncode o with
  | Some c => ret (Some c)
  | None =>
      match child o with
      | Exited c =>
          let* _ := store proc {| pid := pid o; returncode := Some c; child := Exited c |} in
          let* _ := emit (EvReap (pid o) c) in
          ret (Some c)
      | Alive _ _ => ret None
      end
  end.

(** The effect of SIGTERM on a child. *)
Definition deliver (c : ChildState) : ChildState :=
  match c with
  | Alive final (Some code) => Alive (Some code) (Some code)
  | Alive final None => Alive final None
  | Exited code => Exited code
  end.

(** [Popen.terminate()]: poll first, and signal only a child that is not
    known to have exited. *)
Definition terminate (proc : nat) : M unit :=
  let* rc := poll proc in
  match rc with
  | Some _ => ret tt
  | None =>
      let* o := deref proc in
      let* _ := store proc {| pid := pid o; returncode := returncode o;
                              child := deliver (child o) |} in
      emit (EvKill (pid o))
  end.

(** [Popen.wait()]: blocks until the child has exited. *)
Definition wait (proc : nat) : M Z :=
  let* o := deref proc in
  match returncode o with
  | Some c => ret c
  | None =>
      match child o with
      | Exited c | Alive (Some c) _ =>
          let* _ := store proc {| pid := pid o; returncode := Some c; child := Exited c |} in
          let* _ := emit (EvReap (pid o) c) in
          ret c
      | Alive None _ => fun w => (Hang, w)
      end
  end.

Section Server.

Variable env : Env.

(** [subprocess.Popen(args, shell=.., bufsize=.., cwd=..)].  The call
    returns a new handle once the child executes; it raises when no child
    can be forked, and also when the forked child cannot execute, in which
    case it has waited for that child first; and it is a blocking call. *)
Definition Popen_new (args : list string) (shell : bool) (bufsize : Z) (cwd : string) : M nat :=
  let* _ := emit (EvPopen args shell bufsize cwd) in
  fun w =>
    match os_spawn env (trace w) args cwd with
    | Spawned p c =>
        (Ret (length (objects w)),
         set_objects (objects w ++ [ {| pid := p; returncode := None; child := c |} ]) w)
    | ForkFailed msg => (Raise (PyError msg), w)
    | ExecFailed msg p c => (Raise (PyError msg), log (EvReap p c) w)
    | SpawnBlocked => (Hang, w)
    end.

(** ** server.py *)

(** The body of the loop of [cleanup()]. *)
Definition cleanup_entry (entry : nat * option string) : M unit :=
  let proc := entry.1 in
  let* _ := terminate proc in
  let* _ := wait proc in
  ret tt.

(** [cleanup()] *)
Definition cleanup : M unit :=
  let* entries := inspect (fun w => dict_values (bot_procs w)) in
  for_each cleanup_entry entries.

(** [lifespan], up to the [yield]. *)
Definition lifespan_startup : M unit :=
  let* aiohttp_session := inspect (fun w => length (sessions w)) in
  let* _ := (fun w => (Ret tt, set_sessions (sessions w ++ [true]) w)) in
  let* _ := emit (EvSessionOpen aiohttp_session) in
  let* key := getenv_default "DAILY_API_KEY" "" in
  let* api := getenv_default "DAILY_API_URL" "https://api.daily.co/v1" in
  fun w =>
    (Ret tt,
     set_daily_helpers
       (<["rest" := {| daily_api_key := key; daily_api_url := api;
                       aiohttp_session := aiohttp_session |}]> (daily_helpers w)) w).

(** [lifespan], after the [yield]; [aiohttp_session] is the local of the
    same name. *)
Definition lifespan_shutdown (aiohttp_session : nat) : M unit :=
  let* _ := (fun w => (Ret tt, set_sessions (<[aiohttp_session := false]> (sessions w)) w)) in
  let* _ := emit (EvSessionClose aiohttp_session) in
  cleanup.

(** [health_check()], the handler of [GET /]. *)
Definition health_check : M Response :=
  let* daily := getenv "DAILY_API_KEY" in
  let* google := getenv "GOOGLE_API_KEY" in
  ret (JSONResponse (JObj [
    ("status", JStr "ok");
    ("service", JStr "pipecat-gemini-bot");
    ("version", JStr "1.0.0");
    ("daily_api_configured", JBool (truthy daily));
    ("google_api_configured", JBool (truthy google)) ])).

(** [health()], the handler of [GET /health]. *)
Definition health : M Response :=
  ret (JSONResponse (JObj [ ("status", JStr "healthy") ])).

(** [daily_helpers[name]]; a missing key is a [KeyError]. *)
Definition helper (name : string) : M DailyRESTHelper :=
  fun w =>
    match daily_helpers w !! name with
    | Some h => (Ret h, w)
    | None => (Raise (PyError ("'" +:+ name +:+ "'")), w)
    end.

Definition create_room (h : DailyRESTHelper) : M Room :=
  let* _ := emit EvCreateRoom in
  fun w => (outcome_of (rest_create_room env h (trace w)), w).

Definition get_token (h : DailyRESTHelper) (room_url : option string) : M (option string) :=
  let* _ := emit (EvGetToken room_url) in
  fun w => (outcome_of (rest_get_token env h (trace w) room_url), w).

(** [create_room_and_token()] *)
Definition create_room_and_token : M (option string * option string) :=
  let* rest := helper "rest" in
  let* room := create_room rest in
  if negb (truthy (url room)) then
    raise (HTTPException 500 "Failed to create room")
  else
    let* rest := helper "rest" in
    let* token := get_token rest (url room) in
    if negb (truthy token) then
      raise (HTTPException 500 ("Failed to get token for room: " +:+ py_format (url room)))
    else
      ret (url room, token).

(** The command line of the bot. *)
Definition bot_command (bot_file : string) (room_url token : option string) : string :=
  "python3 -m " +:+ bot_file +:+ " -u " +:+ py_format room_url +:+ " -t " +:+ py_format token.

(** [bot_procs[key] = value] *)
Definition register (key : Z) (value : nat * option string) : M unit :=
  let* _ := (fun w => (Ret tt, set_bot_procs (dict_set key value (bot_procs w)) w)) in
  emit (EvRegister key value.2).

(** [bot_connect(request)], the handler of [POST /connect]. *)
Definition bot_connect : M Json :=
  let* _ := emit (EvPrint "Creating room for RTVI connection") in
  let* (room_url, token) := create_room_and_token in
  let* _ := emit (EvPrint ("Room URL: " +:+ py_format room_url)) in
  let* _ :=
    try_except
      (let bot_file := "bot-gemini" in
       let* proc := Popen_new [ bot_command bot_file room_url token ] true 1 (module_dir env) in
       let* o := deref proc in
       register (pid o) (proc, room_url))
      (fun e => raise (HTTPException 500 ("Failed to start subprocess: " +:+ str_exc e))) in
  ret (JObj [ ("room_url", json_of room_url); ("token", json_of token) ]).

(** ** What FastAPI sends back *)

(** A returned [Response] is sent as it is; an [HTTPException] becomes a
    JSON error with its status code; any other exception is a plain 500.  A
    handler that never returns sends nothing. *)
Definition respond (o : Outcome Response) : option Response :=
  match o with
  | Ret r => Some r
  | Raise (HTTPException c d) =>
      Some {| status := c; content := JsonBody (JObj [ ("detail", JStr d) ]) |}
  | Raise (PyError _) =>
      Some {| status := 500; content := TextBody "Internal Server Error" |}
  | Hang => None
  end.

Definition serve (handler : M Response) (w : World) : option Response * World :=
  let (o, w') := handler w in (respond o, w').

(** A handler that returns a dict has it encoded as a 200 JSON response. *)
Definition as_json (handler : M Json) : M Response :=
  let* j := handler in ret (JSONResponse j).

Definition GET_root : World -> option Response * World := serve health_check.
Definition GET_health : World -> option Response * World := serve health.
Definition POST_connect : World -> option Response * World := serve (as_json bot_connect).

(** The worlds the oracles are asked in, one per step of the handler. *)
Definition room_asked (w : World) : World :=
  after [EvPrint "Creating room for RTVI connection"; EvCreateRoom] w.

Definition token_asked (room_url : option string) (w : World) : World :=
  after [EvGetToken room_url] (room_asked w).

Definition spawning (room_url token : option string) (w : World) : World :=
  after [EvPrint ("Room URL: " +:+ py_format room_url);
         EvPopen [bot_command "bot-gemini" room_url token] true 1 (module_dir env)]
        (token_asked room_url w).

(** The world a successful [bot_connect] leaves behind. *)
Definition registered (room_url token : option string) (p : Z) (c : ChildState)
    (w : World) : World :=
  let w3 := spawning room_url token w in
  log (EvRegister p room_url)
    (set_bot_procs (dict_set p (length (objects w), room_url) (bot_procs w))
       (set_objects (objects w ++ [ {| pid := p; returncode := None; child := c |} ]) w3)).

Definition error_response (detail : string) : Response :=
  {| status := 500; content := JsonBody (JObj [ ("detail", JStr detail) ]) |}.

End Server.

(** ** Describing the registered processes *)

(** The process behind a handle has exited, whether or not the handle has
    collected its status yet. *)
Definition has_exited (o : Popen) : bool :=
  match returncode o, child o with
  | Some _, _ => true
  | None, Exited _ => true
  | None, Alive _ _ => false
  end.

(** Every handle in the registry refers to a [Popen] object. *)
Definition registry_ok (w : World) : Prop :=
  Forall (fun entry : nat * option string => is_Some (objects w !! entry.1))
         (dict_values (bot_procs w)).

(** [terminate()] then [wait()] on one handle, in closed form: how it ends,
    the handle afterwards, and what was done to the process. *)
Definition settle (o : Popen) : Outcome unit * Popen * list Event :=
  match returncode o with
  | Some _ => (Ret tt, o, [])
  | None =>
      match child o with
      | Exited c =>
          (Ret tt, {| pid := pid o; returncode := Some c; child := Exited c |},
           [EvReap (pid o) c])
      | Alive final on_term =>
          match deliver (Alive final on_term) with
          | Alive (Some c) _ =>
              (Ret tt, {| pid := pid o; returncode := Some c; child := Exited c |},
               [EvKill (pid o); EvReap (pid o) c])
          | after_signal =>
              (Hang, {| pid := pid o; returncode := None; child := after_signal |},
               [EvKill (pid o)])
          end
      end
  end.

(** Something the operating system does on its own: the child behind
    handle [proc] exits with status [code]. *)
Definition child_exits (proc : nat) (code : Z) (w : World) : World :=
  match objects w !! proc with
  | Some o =>
      set_objects
        (<[proc := {| pid := pid o; returncode := returncode o; child := Exited code |}]>
           (objects w)) w
  | None => w
  end.

(** ** Reading a response *)

Fixpoint assoc (name : string) (fields : list (string * Json)) : option Json :=
  match fields with
  | [] => None
  | (k, v) :: rest => if decide (k = name) then Some v else assoc name rest
  end.

(** The field [name] of a JSON-object body. *)
Definition body_field (name : string) (r : Response) : option Json :=
  match content r with
  | JsonBody (JObj fields) => assoc name fields
  | _ => None
  end.

(** ** Sample runs *)

(** An outside world that always gives the same answers. *)
Definition sample_env (room_url token : option string) (spawned : Spawn) : Env :=
  {| module_dir := "/app";
     rest_create_room := fun _ _ => Returned {| url := room_url |};
     rest_get_token := fun _ _ _ => Returned token;
     os_spawn := fun _ _ _ => spawned |}.

(** A bot that runs until it is told to stop. *)
Definition bot_child : ChildState := Alive None (Some (-15)).

Definition scenario_env : Env :=
  sample_env (Some "https://x.example/room1") (Some "tok123") (Spawned 4242 bot_child).

(** The room comes back without a URL. *)
Definition no_url_env : Env :=
  sample_env (Some "") (Some "tok123") (Spawned 4242 bot_child).

(** The token is missing. *)
Definition no_token_env : Env :=
  sample_env (Some "https://x.example/room1") None (Spawned 4242 bot_child).

(** The process cannot be started. *)
Definition no_spawn_env : Env :=
  sample_env (Some "https://x.example/room1") (Some "tok123")
             (ForkFailed "[Errno 11] Resource temporarily unavailable").

(** The process is forked but cannot execute: the working directory is
    gone.  [Popen] collects the child and raises. *)
Definition no_exec_env : Env :=
  sample_env (Some "https://x.example/room1") (Some "tok123")
             (ExecFailed "[Errno 2] No such file or directory: '/app'" 4242 255).

(** The shell is started, but it finds no [python3] to run and exits with
    status 127. *)
Definition dead_worker_env : Env :=
  sample_env (Some "https://x.example/room1") (Some "tok123")
             (Spawned 4242 (Exited 127)).

(** The helper that [lifespan] installs when the environment is empty. *)
Definition default_helper : DailyRESTHelper :=
  {| daily_api_key := ""; daily_api_url := "https://api.daily.co/v1";
     aiohttp_session := 0 |}.

Definition scenario_response : Response :=
  JSONResponse (JObj [ ("room_url", JStr "https://x.example/room1");
                       ("token", JStr "tok123") ]).

(** A freshly imported module whose environment holds a Daily key. *)
Definition with_daily_key : World := initial {[ "DAILY_API_KEY" := "k" ]}.

(** The service after startup, with nothing in the environment. *)
Definition started : World := (lifespan_startup (initial ∅)).2.

(** The service after startup and one [POST /connect]. *)
Definition one_session : World := (POST_connect scenario_env started).2.

(** The same, after the bot has exited on its own with status 0. *)
Definition one_exited_session : World := child_exits 0 0 one_session.

(** The service after a second [POST /connect] that was given the pid of
    the first. *)
Definition same_pid_again : World := (POST_connect scenario_env one_session).2.

(** The service after one [POST /connect] and a completed [cleanup()]. *)
Definition cleaned_up : World := (cleanup one_session).2.

(** ** The whole life of the service *)

(** [lifespan(app)] as one computation: [serving] is what happens while the
    context is held, between the [yield] and the shutdown code.  The
    generator has no [try]/[finally] around its [yield], so an exception
    thrown in there leaves it at once. *)
Definition lifespan (serving : M unit) : M unit :=
  let* aiohttp_session := inspect (fun w => length (sessions w)) in
  let* _ := lifespan_startup in
  let* _ := serving in
  lifespan_shutdown aiohttp_session.

(** What can happen to the service, one event at a time. *)
Inductive Op : Type :=
  | OpStartup
  | OpShutdown (aiohttp_session : nat)
  | OpCleanup
  | OpRoot
  | OpHealth
  | OpConnect
  | OpChildExits (proc : nat) (code : Z).

Definition step (env : Env) (op : Op) (w : World) : World :=
  match op with
  | OpStartup => (lifespan_startup w).2
  | OpShutdown s => (lifespan_shutdown s w).2
  | OpCleanup => (cleanup w).2
  | OpRoot => (GET_root w).2
  | OpHealth => (GET_health w).2
  | OpConnect => (POST_connect env w).2
  | OpChildExits proc code => child_exits proc code w
  end.

Definition run (env : Env) (ops : list Op) (w : World) : World :=
  fold_left (fun w op => step env op w) ops w.

(** The answer FastAPI gives for an exception that is no [HTTPException]. *)
Definition internal_error : Response :=
  {| status := 500; content := TextBody "Internal Server Error" |}.

(** The keys of the registry and the handles it refers to, in iteration
    order. *)
Definition keys (d : list (Z * (nat * option string))) : list Z := map fst d.

Definition handles (d : list (Z * (nat * option string))) : list nat :=
  map (fun e : Z * (nat * option string) => e.2.1) d.

(** What holds of the registry in every state the service can reach: no pid
    is registered twice, no handle is registered twice, and every record is
    keyed by the pid of its own handle and carries a non-empty room URL. *)
Definition registry_inv (w : World) : Prop :=
  NoDup (keys (bot_procs w)) /\
  NoDup (handles (bot_procs w)) /\
  forall k proc u,
    (k, (proc, u)) ∈ bot_procs w ->
    exists o, objects w !! proc = Some o /\ pid o = k /\ truthy u = true.

(** The process behind a handle has exited or will exit once it is sent
    SIGTERM. *)
Definition will_exit (o : Popen) : bool :=
  match returncode o, child o with
  | Some _, _ => true
  | None, Exited _ => true
  | None, Alive _ (Some _) => true
  | None, Alive (Some _) None => true
  | None, Alive None None => false
  end.

(** What [terminate()] followed by [wait()] does to the process of a
    handle. *)
Definition termination_events (o : Popen) : list Event :=
  match returncode o, child o with
  | Some _, _ => []
  | None, Exited c => [EvReap (pid o) c]
  | None, Alive _ (Some c) => [EvKill (pid o); EvReap (pid o) c]
  | None, Alive (Some c) None => [EvKill (pid o); EvReap (pid o) c]
  | None, Alive None None => [EvKill (pid o)]
  end.

Definition farewell (w : World) (proc : nat) : list Event :=
  match objects w !! proc with
  | Some o => termination_events o
  | None => []
  end.

(** ** Every way a [POST /connect] can go *)

(** The answer and the world after [POST /connect] in world [w], by what
    the outside world answers at each step. *)
Inductive ConnectOutcome (env : Env) (w : World) : option Response -> World -> Prop :=
  | NoHelper :
      daily_helpers w !! "rest" = None ->
      ConnectOutcome env w (Some internal_error)
        (log (EvPrint "Creating room for RTVI connection") w)
  | RoomRaised rest msg :
      daily_helpers w !! "rest" = Some rest ->
      rest_create_room env rest (trace (room_asked w)) = Failed msg ->
      ConnectOutcome env w (Some internal_error) (room_asked w)
  | RoomSilent rest :
      daily_helpers w !! "rest" = Some rest ->
      rest_create_room env rest (trace (room_asked w)) = NoAnswer ->
      ConnectOutcome env w None (room_asked w)
  | RoomUnusable rest room :
      daily_helpers w !! "rest" = Some rest ->
      rest_create_room env rest (trace (room_asked w)) = Returned room ->
      truthy (url room) = false ->
      ConnectOutcome env w (Some (error_response "Failed to create room")) (room_asked w)
  | TokenRaised rest room msg :
      daily_helpers w !! "rest" = Some rest ->
      rest_create_room env rest (trace (room_asked w)) = Returned room ->
      truthy (url room) = true ->
      rest_get_token env rest (trace (token_asked (url room) w)) (url room) = Failed msg ->
      ConnectOutcome env w (Some internal_error) (token_asked (url room) w)
  | TokenSilent rest room :
      daily_helpers w !! "rest" = Some rest ->
      rest_create_room env rest (trace (room_asked w)) = Returned room ->
      truthy (url room) = true ->
      rest_get_token env rest (trace (token_asked (url room) w)) (url room) = NoAnswer ->
      ConnectOutcome env w None (token_asked (url room) w)
  | TokenUnusable rest room token :
      daily_helpers w !! "rest" = Some rest ->
      rest_create_room env rest (trace (room_asked w)) = Returned room ->
      truthy (url room) = true ->
      rest_get_token env rest (trace (token_asked (url room) w)) (url room)
        = Returned token ->
      truthy token = false ->
      ConnectOutcome env w
        (Some (error_response ("Failed to get token for room: " +:+ py_format (url room))))
        (token_asked (url room) w)
  | SpawnFailed rest room token cause :
      daily_helpers w !! "rest" = Some rest ->
      rest_create_room env rest (trace (room_asked w)) = Returned room ->
      truthy (url room) = true ->
      rest_get_token env rest (trace (token_asked (url room) w)) (url room)
        = Returned token ->
      truthy token = true ->
      os_spawn env (trace (spawning env (url room) token w))
        [bot_command "bot-gemini" (url room) token] (module_dir env) = ForkFailed cause ->
      ConnectOutcome env w
        (Some (error_response ("Failed to start subprocess: " +:+ cause)))
        (spawning env (url room) token w)
  | SpawnReaped rest room token cause p c :
      daily_helpers w !! "rest" = Some rest ->
      rest_create_room env rest (trace (room_asked w)) = Returned room ->
      truthy (url room) = true ->
      rest_get_token env rest (trace (token_asked (url room) w)) (url room)
        = Returned token ->
      truthy token = true ->
      os_spawn env (trace (spawning env (url room) token w))
        [bot_command "bot-gemini" (url room) token] (module_dir env)
        = ExecFailed cause p c ->
      ConnectOutcome env w
        (Some (error_response ("Failed to start subprocess: " +:+ cause)))
        (log (EvReap p c) (spawning env (url room) token w))
  | SpawnSilent rest room token :
      daily_helpers w !! "rest" = Some rest ->
      rest_create_room env rest (trace (room_asked w)) = Returned room ->
      truthy (url room) = true ->
      rest_get_token env rest (trace (token_asked (url room) w)) (url room)
        = Returned token ->
      truthy token = true ->
      os_spawn env (trace (spawning env (url room) token w))
        [bot_command "bot-gemini" (url room) token] (module_dir env) = SpawnBlocked ->
      ConnectOutcome env w None (spawning env (url room) token w)
  | Connected rest room token p c :
      daily_helpers w !! "rest" = Some rest ->
      rest_create_room env rest (trace (room_asked w)) = Returned room ->
      truthy (url room) = true ->
      rest_get_token env rest (trace (token_asked (url room) w)) (url room)
        = Returned token ->
      truthy token = true ->
      os_spawn env (trace (spawning env (url room) token w))
        [bot_command "bot-gemini" (url room) token] (module_dir env) = Spawned p c ->
      ConnectOutcome env w
        (Some (JSONResponse (JObj [ ("room_url", json_of (url room));
                                    ("token", json_of token) ])))
        (registered env (url room) token p c w).

(** ** More sample runs *)

(** A bot that ignores SIGTERM and never exits. *)
Definition stubborn_child : ChildState := Alive None None.

(** Three sessions; the bot that was registered second is stubborn. *)
Definition stuck_service : World :=
  {| environ := ∅; daily_helpers := ∅;
     bot_procs := [ (11, (0%nat, Some "https://x.example/a"));
                    (12, (1%nat, Some "https://x.example/b"));
                    (13, (2%nat, Some "https://x.example/c")) ];
     objects := [ {| pid := 11; returncode := None; child := bot_child |};
                  {| pid := 12; returncode := None; child := stubborn_child |};
                  {| pid := 13; returncode := None; child := bot_child |} ];
     sessions := []; trace := [] |}.

(** Two sessions with bots that stop when told to; the second has already
    exited on its own. *)
Definition two_sessions : World :=
  {| environ := ∅; daily_helpers := ∅;
     bot_procs := [ (11, (0%nat, Some "https://x.example/a"));
                    (12, (1%nat, Some "https://x.example/b")) ];
     objects := [ {| pid := 11; returncode := None; child := bot_child |};
                  {| pid := 12; returncode := None; child := Exited 1 |} ];
     sessions := []; trace := [] |}.

(** The Daily helper fails in [create_room], or in [get_token]. *)
Definition room_error_env : Env :=
  {| module_dir := "/app";
     rest_create_room := fun _ _ => Failed "Unable to create room";
     rest_get_token := fun _ _ _ => Returned (Some "tok123");
     os_spawn := fun _ _ _ => Spawned 4242 bot_child |}.

Definition token_error_env : Env :=
  {| module_dir := "/app";
     rest_create_room := fun _ _ => Returned {| url := Some "https://x.example/room1" |};
     rest_get_token := fun _ _ _ => Failed "Failed to get meeting token";
     os_spawn := fun _ _ _ => Spawned 4242 bot_child |}.

(** The Daily API never answers the token request. *)
Definition silent_token_env : Env :=
  {| module_dir := "/app";
     rest_create_room := fun _ _ => Returned {| url := Some "https://x.example/room1" |};
     rest_get_token := fun _ _ _ => NoAnswer;
     os_spawn := fun _ _ _ => Spawned 4242 bot_child |}.

(** Starting the process never returns. *)
Definition blocked_spawn_env : Env :=
  sample_env (Some "https://x.example/room1") (Some "tok123") SpawnBlocked.

(** What runs between startup and shutdown: one [POST /connect]. *)
Definition one_request (env : Env) : M unit :=
  fun w => (Ret tt, (POST_connect env w).2).

(** Or something that goes wrong. *)
Definition failing_app : M unit := raise (PyError "server error").

(** * Properties *)

(** ** Reasoning in the monad *)

Lemma bind_Ret {A B} (m : M A) (k : A -> M B) w a w1 :
  m w = (Ret a, w1) -> bind m k w = k a w1.
Proof. intros H. unfold bind. now rewrite H. Qed.

Lemma bind_Raise {A B} (m : M A) (k : A -> M B) w e w1 :
  m w = (Raise e, w1) -> bind m k w = (Raise e, w1).
Proof. intros H. unfold bind. now rewrite H. Qed.

Lemma bind_Hang {A B} (m : M A) (k : A -> M B) w w1 :
  m w = (Hang, w1) -> bind m k w = (Hang, w1).
Proof. intros H. unfold bind. now rewrite H. Qed.

Lemma bind_inv_Ret {A B} (m : M A) (k : A -> M B) w b w2 :
  bind m k w = (Ret b, w2) ->
  exists a w1, m w = (Ret a, w1) /\ k a w1 = (Ret b, w2).
Proof.
  unfold bind. destruct (m w) as [[a | e | ] w1]; intros H; try discriminate.
  now exists a, w1.
Qed.

Lemma trace_after evs w : trace (after evs w) = trace w ++ evs.
Proof.
  revert w. induction evs as [| e evs IH]; intros w; simpl.
  - now rewrite app_nil_r.
  - rewrite IH. simpl. now rewrite <- app_assoc.
Qed.

Lemma bot_procs_after evs w : bot_procs (after evs w) = bot_procs w.
Proof. revert w. induction evs as [| e evs IH]; intros w; simpl; [| rewrite IH]; reflexivity. Qed.

Lemma objects_after evs w : objects (after evs w) = objects w.
Proof. revert w. induction evs as [| e evs IH]; intros w; simpl; [| rewrite IH]; reflexivity. Qed.

Lemma truthy_Some v : truthy v = true -> exists s, v = Some s /\ s <> "".
Proof.
  destruct v as [[| a s] |]; simpl; intros H; try discriminate.
  exists (String a s). split; [reflexivity | discriminate].
Qed.

(** ** The Python dict *)

Lemma dict_get_set_eq {V} k (v : V) d : dict_get k (dict_set k v d) = Some v.
Proof.
  induction d as [| [k' v'] d IH]; simpl.
  - now rewrite decide_True.
  - destruct (decide (k' = k)) as [-> | Hne]; simpl.
    + now rewrite decide_True.
    + now rewrite decide_False.
Qed.

Lemma dict_get_set_ne {V} k k0 (v : V) d :
  k0 <> k -> dict_get k0 (dict_set k v d) = dict_get k0 d.
Proof.
  intros Hne. induction d as [| [k' v'] d IH]; simpl.
  - now rewrite decide_False by congruence.
  - destruct (decide (k' = k)) as [-> | Hk]; simpl.
    + now rewrite !decide_False by congruence.
    + destruct (decide (k' = k0)); [reflexivity | exact IH].
Qed.

Lemma dict_set_length_fresh {V} k (v : V) d :
  dict_get k d = None -> length (dict_set k v d) = S (length d).
Proof.
  induction d as [| [k' v'] d IH]; simpl; [reflexivity |].
  destruct (decide (k' = k)); [discriminate |].
  intros H. simpl. now rewrite IH.
Qed.

Lemma dict_set_length_present {V} k (v : V) d :
  is_Some (dict_get k d) -> length (dict_set k v d) = length d.
Proof.
  induction d as [| [k' v'] d IH]; simpl.
  - intros [x Hx]. discriminate.
  - destruct (decide (k' = k)); [reflexivity |].
    intros H. simpl. now rewrite IH.
Qed.

Lemma dict_set_keeps {V} k k0 (v : V) d :
  is_Some (dict_get k0 d) -> is_Some (dict_get k0 (dict_set k v d)).
Proof.
  intros H. destruct (decide (k0 = k)) as [-> | Hne].
  - rewrite dict_get_set_eq. eauto.
  - now rewrite dict_get_set_ne.
Qed.

Lemma dict_set_values_Forall {V} (P : V -> Prop) k v (d : list (Z * V)) :
  Forall P (dict_values d) -> P v -> Forall P (dict_values (dict_set k v d)).
Proof.
  unfold dict_values. intros Hd Hv. induction d as [| [k' v'] d IH]; cbn [dict_set map snd].
  - now repeat constructor.
  - cbn [map snd] in Hd. apply Forall_cons in Hd as [Hv' Hd].
    destruct (decide (k' = k)); cbn [map snd]; constructor; auto.
Qed.

(** ** POST /connect *)

Section Connect.

Variable env : Env.

Ltac run_monad :=
  unfold POST_connect, serve, as_json, bot_connect, create_room_and_token,
    create_room, get_token, helper, try_except, Popen_new, register, deref,
    dangling, raise, emit, inspect, bind, ret.

(** Every way [bot_connect] can end, by what the outside world answers. *)
Lemma create_room_and_token_run w :
  create_room_and_token env w =
  match daily_helpers w !! "rest" with
  | None => (Raise (PyError "'rest'"), w)
  | Some rest =>
      let w1 := log EvCreateRoom w in
      match rest_create_room env rest (trace w1) with
      | Failed msg => (Raise (PyError msg), w1)
      | NoAnswer => (Hang, w1)
      | Returned room =>
          if truthy (url room) then
            let w2 := log (EvGetToken (url room)) w1 in
            match rest_get_token env rest (trace w2) (url room) with
            | Failed msg => (Raise (PyError msg), w2)
            | NoAnswer => (Hang, w2)
            | Returned token =>
                if truthy token then (Ret (url room, token), w2)
                else (Raise (HTTPException 500
                        ("Failed to get token for room: " +:+ py_format (url room))), w2)
            end
          else (Raise (HTTPException 500 "Failed to create room"), w1)
      end
  end.
Proof.
  run_monad.
  destruct (daily_helpers w !! "rest") as [rest |] eqn:Hrest; [| reflexivity].
  cbn [log daily_helpers trace].
  destruct (rest_create_room env rest _) as [room | msg |]; cbn [outcome_of]; try reflexivity.
  destruct (truthy (url room)); cbn [negb]; [| reflexivity].
  cbn [log daily_helpers trace]. rewrite Hrest.
  destruct (rest_get_token env rest _ _) as [token | msg |]; cbn [outcome_of]; try reflexivity.
  destruct (truthy token); reflexivity.
Qed.

Lemma bot_connect_run w :
  bot_connect env w =
  match create_room_and_token env (log (EvPrint "Creating room for RTVI connection") w) with
  | (Ret (room_url, token), w2) =>
      let w3 := after [EvPrint ("Room URL: " +:+ py_format room_url);
                       EvPopen [bot_command "bot-gemini" room_url token] true 1
                               (module_dir env)] w2 in
      match os_spawn env (trace w3) [bot_command "bot-gemini" room_url token]
                     (module_dir env) with
      | Spawned p c =>
          (Ret (JObj [ ("room_url", json_of room_url); ("token", json_of token) ]),
           log (EvRegister p room_url)
             (set_bot_procs (dict_set p (length (objects w3), room_url) (bot_procs w3))
                (set_objects
                   (objects w3 ++ [ {| pid := p; returncode := None; child := c |} ]) w3)))
      | ForkFailed msg =>
          (Raise (HTTPException 500 ("Failed to start subprocess: " +:+ msg)), w3)
      | ExecFailed msg p c =>
          (Raise (HTTPException 500 ("Failed to start subprocess: " +:+ msg)),
           log (EvReap p c) w3)
      | SpawnBlocked => (Hang, w3)
      end
  | (Raise e, w2) => (Raise e, w2)
  | (Hang, w2) => (Hang, w2)
  end.
Proof.
  unfold bot_connect.
  rewrite (bind_Ret _ _ w tt (log (EvPrint "Creating room for RTVI connection") w))
    by reflexivity.
  unfold bind at 1.
  destruct (create_room_and_token env _) as [[[room_url token] | e |] w2]; try reflexivity.
  unfold try_except, Popen_new, register, deref, dangling, raise, emit, inspect, bind, ret.
  cbn [after fold_left log trace objects].
  destruct (os_spawn env _ _ _) as [p c | msg | msg p c |]; try reflexivity.
  cbn [set_objects objects].
  rewrite list_lookup_middle by reflexivity.
  reflexivity.
Qed.

Ltac connect_worlds :=
  unfold registered, spawning, token_asked, room_asked in *;
  cbn [after fold_left log set_objects set_bot_procs
       trace objects bot_procs daily_helpers environ sessions] in *.

(** A 200 answer of [POST /connect] pins down every step that was taken. *)
Lemma POST_connect_200 w r w' :
  POST_connect env w = (Some r, w') -> status r = 200 ->
  exists rest room token p c,
    daily_helpers w !! "rest" = Some rest /\
    rest_create_room env rest (trace (room_asked w)) = Returned room /\
    truthy (url room) = true /\
    rest_get_token env rest (trace (token_asked (url room) w)) (url room) = Returned token /\
    truthy token = true /\
    os_spawn env (trace (spawning env (url room) token w))
      [bot_command "bot-gemini" (url room) token] (module_dir env) = Spawned p c /\
    w' = registered env (url room) token p c w /\
    r = JSONResponse (JObj [ ("room_url", json_of (url room)); ("token", json_of token) ]).
Proof.
  unfold POST_connect, serve, as_json. unfold bind at 1.
  rewrite bot_connect_run, create_room_and_token_run.
  connect_worlds.
  destruct (daily_helpers w !! "rest") as [rest |]; cbn zeta;
    [| intros H Hs; injection H as <- <-; discriminate Hs].
  destruct (rest_create_room env rest _) as [room | msg |] eqn:Hroom;
    [| intros H Hs; injection H as <- <-; discriminate Hs | intros H; discriminate H].
  destruct (truthy (url room)) eqn:Hurl;
    [| intros H Hs; injection H as <- <-; discriminate Hs].
  destruct (rest_get_token env rest _ _) as [token | msg |] eqn:Htoken;
    [| intros H Hs; injection H as <- <-; discriminate Hs | intros H; discriminate H].
  destruct (truthy token) eqn:Htok;
    [| intros H Hs; injection H as <- <-; discriminate Hs].
  destruct (os_spawn env _ _ _) as [p c | msg | msg p0 c0 |] eqn:Hspawn;
    [| intros H Hs; injection H as <- <-; discriminate Hs
     | intros H Hs; injection H as <- <-; discriminate Hs
     | intros H; discriminate H].
  intros H _. injection H as <- <-.
  exists rest, room, token, p, c. repeat split; assumption || reflexivity.
Qed.


(** C6. The body of a successful [POST /connect] carries a non-empty
    [room_url] and a non-empty [token]. *)
Theorem connect_success_nonempty w r w' :
  POST_connect env w = (Some r, w') -> status r = 200 ->
  exists room_url token : string,
    content r = JsonBody (JObj [ ("room_url", JStr room_url); ("token", JStr token) ]) /\
    room_url <> "" /\ token <> "".
Proof.
  intros H Hs.
  destruct (POST_connect_200 w r w' H Hs)
    as (rest & [u] & token & p & c & _ & _ & Hu & _ & Ht & _ & _ & ->).
  cbn [url] in *.
  destruct (truthy_Some _ Hu) as (room_url & -> & Hne1).
  destruct (truthy_Some _ Ht) as (tok & -> & Hne2).
  exists room_url, tok. repeat split; assumption.
Qed.

(** C2. When the room that comes back has no usable URL, the answer is a
    500 saying so; nothing was done beyond the greeting line and the
    create-room call: no token request, no process, and the registry is as
    it was. *)
Theorem connect_room_failure w rest room :
  daily_helpers w !! "rest" = Some rest ->
  rest_create_room env rest (trace (room_asked w)) = Returned room ->
  truthy (url room) = false ->
  POST_connect env w = (Some (error_response "Failed to create room"), room_asked w) /\
  trace (room_asked w) =
    trace w ++ [ EvPrint "Creating room for RTVI connection"; EvCreateRoom ] /\
  bot_procs (room_asked w) = bot_procs w /\
  objects (room_asked w) = objects w.
Proof.
  intros Hrest Hroom Hu.
  split; [| repeat split; connect_worlds; rewrite <- ?app_assoc; reflexivity].
  unfold POST_connect, serve, as_json. unfold bind at 1.
  rewrite bot_connect_run, create_room_and_token_run.
  connect_worlds. rewrite Hrest. cbn zeta. rewrite Hroom, Hu. reflexivity.
Qed.

(** C3. When the room is there but the token is empty or missing, the
    answer is a 500 whose detail names the room URL; the handler stopped
    after the token request: no process, registry as it was. *)
Theorem connect_token_failure w rest room token :
  daily_helpers w !! "rest" = Some rest ->
  rest_create_room env rest (trace (room_asked w)) = Returned room ->
  truthy (url room) = true ->
  rest_get_token env rest (trace (token_asked (url room) w)) (url room) = Returned token ->
  truthy token = false ->
  exists room_url : string,
    url room = Some room_url /\
    POST_connect env w =
      (Some (error_response ("Failed to get token for room: " +:+ room_url)),
       token_asked (url room) w) /\
    trace (token_asked (url room) w) =
      trace w ++ [ EvPrint "Creating room for RTVI connection"; EvCreateRoom;
                   EvGetToken (url room) ] /\
    bot_procs (token_asked (url room) w) = bot_procs w /\
    objects (token_asked (url room) w) = objects w.
Proof.
  intros Hrest Hroom Hu Htoken Ht.
  destruct (truthy_Some _ Hu) as (room_url & Eu & _).
  exists room_url. split; [exact Eu |].
  split; [| repeat split; connect_worlds; rewrite <- ?app_assoc; reflexivity].
  unfold POST_connect, serve, as_json. unfold bind at 1.
  rewrite bot_connect_run, create_room_and_token_run.
  connect_worlds. rewrite Hrest. cbn zeta. rewrite Hroom, Hu, Htoken, Ht.
  rewrite Eu. reflexivity.
Qed.

(** C4 does not hold of the code.  The docstring of [bot_connect] promises
    an [HTTPException] when the bot fails to start, and the [try] around
    [Popen] is there for it; but the command goes through a shell
    ([shell=True]), so what [Popen] starts is the shell, and a bot that
    cannot be started (no [python3], no module [bot-gemini]) shows only in
    the exit status of that shell, which [bot_connect] never reads.
    Whatever that status is, the answer is 200 with the room and the token,
    and the dead process is registered. *)
Theorem connect_answers_200_for_dead_worker w rest room token p code :
  daily_helpers w !! "rest" = Some rest ->
  rest_create_room env rest (trace (room_asked w)) = Returned room ->
  truthy (url room) = true ->
  rest_get_token env rest (trace (token_asked (url room) w)) (url room) = Returned token ->
  truthy token = true ->
  os_spawn env (trace (spawning env (url room) token w))
    [bot_command "bot-gemini" (url room) token] (module_dir env)
    = Spawned p (Exited code) ->
  POST_connect env w =
    (Some (JSONResponse (JObj [ ("room_url", json_of (url room));
                                ("token", json_of token) ])),
     registered env (url room) token p (Exited code) w) /\
  dict_get p (bot_procs (registered env (url room) token p (Exited code) w))
    = Some (length (objects w), url room) /\
  objects (registered env (url room) token p (Exited code) w) !! length (objects w)
    = Some {| pid := p; returncode := None; child := Exited code |}.
Proof.
  intros Hrest Hroom Hu Htoken Ht Hspawn.
  split; [| split].
  - unfold POST_connect, serve, as_json. unfold bind at 1.
    rewrite bot_connect_run, create_room_and_token_run.
    connect_worlds. rewrite Hrest. cbn zeta. rewrite Hroom, Hu, Htoken, Ht.
    cbn zeta. connect_worlds. rewrite Hspawn. reflexivity.
  - connect_worlds. apply dict_get_set_eq.
  - connect_worlds. now apply list_lookup_middle.
Qed.

(** X20. When [Popen] itself raises - no child could be forked, or the
    child could not execute and [Popen] has collected its status - the
    [except] clause answers 500 with the error in the detail, and nothing
    is registered. *)
Theorem connect_launch_failure w rest room token cause :
  daily_helpers w !! "rest" = Some rest ->
  rest_create_room env rest (trace (room_asked w)) = Returned room ->
  truthy (url room) = true ->
  rest_get_token env rest (trace (token_asked (url room) w)) (url room) = Returned token ->
  truthy token = true ->
  (os_spawn env (trace (spawning env (url room) token w))
     [bot_command "bot-gemini" (url room) token] (module_dir env) = ForkFailed cause ->
   POST_connect env w =
     (Some (error_response ("Failed to start subprocess: " +:+ cause)),
      spawning env (url room) token w)) /\
  (forall p c,
     os_spawn env (trace (spawning env (url room) token w))
       [bot_command "bot-gemini" (url room) token] (module_dir env)
       = ExecFailed cause p c ->
     POST_connect env w =
       (Some (error_response ("Failed to start subprocess: " +:+ cause)),
        log (EvReap p c) (spawning env (url room) token w))) /\
  bot_procs (spawning env (url room) token w) = bot_procs w /\
  objects (spawning env (url room) token w) = objects w.
Proof.
  intros Hrest Hroom Hu Htoken Ht.
  split; [| split; [| split; connect_worlds; reflexivity]].
  - intros Hspawn.
    unfold POST_connect, serve, as_json. unfold bind at 1.
    rewrite bot_connect_run, create_room_and_token_run.
    connect_worlds. rewrite Hrest. cbn zeta. rewrite Hroom, Hu, Htoken, Ht.
    cbn zeta. connect_worlds. rewrite Hspawn. reflexivity.
  - intros p c Hspawn.
    unfold POST_connect, serve, as_json. unfold bind at 1.
    rewrite bot_connect_run, create_room_and_token_run.
    connect_worlds. rewrite Hrest. cbn zeta. rewrite Hroom, Hu, Htoken, Ht.
    cbn zeta. connect_worlds. rewrite Hspawn. reflexivity.
Qed.

(** Whatever happens in [POST /connect], registry and process objects are
    left alone, or one object is added and one registry assignment made. *)
Lemma POST_connect_state w :
  (bot_procs (POST_connect env w).2 = bot_procs w /\
   objects (POST_connect env w).2 = objects w) \/
  (exists p c u,
     bot_procs (POST_connect env w).2
       = dict_set p (length (objects w), u) (bot_procs w) /\
     objects (POST_connect env w).2
       = objects w ++ [ {| pid := p; returncode := None; child := c |} ]).
Proof.
  destruct (POST_connect env w) as [o w'] eqn:H. cbn [snd]. revert H.
  unfold POST_connect, serve, as_json. unfold bind at 1.
  rewrite bot_connect_run, create_room_and_token_run.
  connect_worlds.
  destruct (daily_helpers w !! "rest") as [rest |]; cbn zeta;
    [| intros H; injection H as <- <-; now left].
  destruct (rest_create_room env rest _) as [room | msg |];
    try (intros H; injection H as <- <-; now left).
  destruct (truthy (url room)); [| intros H; injection H as <- <-; now left].
  destruct (rest_get_token env rest _ _) as [token | msg |];
    try (intros H; injection H as <- <-; now left).
  destruct (truthy token); [| intros H; injection H as <- <-; now left].
  destruct (os_spawn env _ _ _) as [p c | msg | msg p0 c0 |];
    intros H; injection H as <- <-; [| now left | now left | now left].
  right. now exists p, c, (url room).
Qed.

(** [POST /connect] keeps the registry's handles valid. *)
Lemma registry_ok_POST_connect w :
  registry_ok w -> registry_ok (POST_connect env w).2.
Proof.
  unfold registry_ok. intros Hok.
  destruct (POST_connect_state w) as [[-> ->] | (p & c & u & -> & ->)]; [exact Hok |].
  apply dict_set_values_Forall.
  - eapply Forall_impl; [exact Hok |]. intros e He. apply lookup_lt_is_Some.
    rewrite length_app. apply lookup_lt_is_Some in He. cbn [length]. lia.
  - cbn [fst]. apply lookup_lt_is_Some. rewrite length_app. cbn [length]. lia.
Qed.

(** C10. A successful [POST /connect] assigns one registry entry: its key
    is the pid of the process just started, its value the handle of that
    process paired with the [room_url] of the response.  Every other key
    keeps its record; a fresh pid makes the registry one entry longer, a
    pid that is already a key has its record replaced without any error.
    No endpoint ever takes a key out of the registry. *)
Theorem connect_registers_session :
  (forall w r w',
     POST_connect env w = (Some r, w') -> status r = 200 ->
     exists (room_url token : string) (o : Popen),
       let proc := length (objects w) in
       r = JSONResponse (JObj [ ("room_url", JStr room_url); ("token", JStr token) ]) /\
       objects w' = objects w ++ [o] /\
       objects w' !! proc = Some o /\
       returncode o = None /\
       bot_procs w' = dict_set (pid o) (proc, Some room_url) (bot_procs w) /\
       dict_get (pid o) (bot_procs w') = Some (proc, Some room_url) /\
       (forall k, k <> pid o -> dict_get k (bot_procs w') = dict_get k (bot_procs w)) /\
       (dict_get (pid o) (bot_procs w) = None ->
        length (bot_procs w') = S (length (bot_procs w))) /\
       (is_Some (dict_get (pid o) (bot_procs w)) ->
        length (bot_procs w') = length (bot_procs w))) /\
  (forall w k,
     is_Some (dict_get k (bot_procs w)) ->
     is_Some (dict_get k (bot_procs (POST_connect env w).2)) /\
     is_Some (dict_get k (bot_procs (GET_root w).2)) /\
     is_Some (dict_get k (bot_procs (GET_health w).2))).
Proof.
  split.
  - intros w r w' H Hs.
    destruct (POST_connect_200 w r w' H Hs)
      as (rest & [u] & token & p & c & _ & _ & Hu & _ & Ht & _ & -> & ->).
    cbn [url] in *.
    destruct (truthy_Some _ Hu) as (room_url & -> & _).
    destruct (truthy_Some _ Ht) as (tok & -> & _).
    exists room_url, tok, {| pid := p; returncode := None; child := c |}.
    connect_worlds. cbn [pid returncode].
    split; [reflexivity |]. split; [reflexivity |].
    split; [now apply list_lookup_middle |]. split; [reflexivity |].
    split; [reflexivity |]. split; [apply dict_get_set_eq |].
    split; [intros k Hk; now apply dict_get_set_ne |].
    split; [apply dict_set_length_fresh | apply dict_set_length_present].
  - intros w k Hk. split; [| split; exact Hk].
    destruct (POST_connect_state w) as [[-> _] | (p & c & u & -> & _)];
      [exact Hk | now apply dict_set_keeps].
Qed.

End Connect.

(** ** GET / and GET /health *)

(** C7. [GET /] answers 200 and keeps the world as it is; its
    [daily_api_configured] flag is [false] when the environment has no
    [DAILY_API_KEY] and [true] when it has one.  A variable that is set to
    the empty string holds no key: the flag is [false] for it. *)
Theorem root_reports_daily_key w :
  exists r,
    GET_root w = (Some r, w) /\ status r = 200 /\
    (environ w !! "DAILY_API_KEY" = None ->
     body_field "daily_api_configured" r = Some (JBool false)) /\
    (forall key, environ w !! "DAILY_API_KEY" = Some key -> key <> "" ->
     body_field "daily_api_configured" r = Some (JBool true)) /\
    (environ w !! "DAILY_API_KEY" = Some "" ->
     body_field "daily_api_configured" r = Some (JBool false)).
Proof.
  eexists. split; [reflexivity |]. split; [reflexivity |].
  unfold body_field. cbn [content JSONResponse assoc].
  repeat split.
  - intros ->. reflexivity.
  - intros key -> Hne. destruct key; [contradiction | reflexivity].
  - intros ->. reflexivity.
Qed.

(** C9. [GET /] and [GET /health] change nothing: the world after either
    is the world before, registry included; and both answer 200, in every
    state of the service. *)
Theorem health_endpoints_pure w :
  exists r_root r_health,
    GET_root w = (Some r_root, w) /\ status r_root = 200 /\
    GET_health w = (Some r_health, w) /\ status r_health = 200.
Proof.
  do 2 eexists. repeat split.
Qed.

(** ** cleanup *)

Lemma world_eta w :
  {| environ := environ w; daily_helpers := daily_helpers w; bot_procs := bot_procs w;
     objects := objects w; sessions := sessions w; trace := trace w |} = w.
Proof. now destruct w. Qed.

Lemma set_objects_id w : set_objects (objects w) w = w.
Proof. apply world_eta. Qed.

Lemma deref_run proc w o : objects w !! proc = Some o -> deref proc w = (Ret o, w).
Proof. intros H. unfold deref. now rewrite H. Qed.

Lemma deref_dangling {A} proc (k : Popen -> M A) w :
  objects w !! proc = None ->
  bind (deref proc) k w = (Raise (PyError "dangling reference"), w).
Proof. intros H. apply bind_Raise. unfold deref. now rewrite H. Qed.

(** The handle after its return code has been collected. *)
Lemma poll_run proc w o :
  objects w !! proc = Some o ->
  poll proc w =
  match returncode o, child o with
  | Some c, _ => (Ret (Some c), w)
  | None, Exited c =>
      (Ret (Some c),
       log (EvReap (pid o) c)
         (set_objects
            (<[proc := {| pid := pid o; returncode := Some c; child := Exited c |}]>
               (objects w)) w))
  | None, Alive _ _ => (Ret None, w)
  end.
Proof.
  intros H. unfold poll. rewrite (bind_Ret _ _ _ _ _ (deref_run _ _ _ H)).
  destruct (returncode o); [reflexivity |]. destruct (child o); reflexivity.
Qed.

Lemma terminate_run proc w o :
  objects w !! proc = Some o ->
  terminate proc w =
  match returncode o, child o with
  | Some c, _ => (Ret tt, w)
  | None, Exited c =>
      (Ret tt,
       log (EvReap (pid o) c)
         (set_objects
            (<[proc := {| pid := pid o; returncode := Some c; child := Exited c |}]>
               (objects w)) w))
  | None, Alive final on_term =>
      (Ret tt,
       log (EvKill (pid o))
         (set_objects
            (<[proc := {| pid := pid o; returncode := None;
                          child := deliver (Alive final on_term) |}]>
               (objects w)) w))
  end.
Proof.
  intros H. unfold terminate, bind at 1. rewrite (poll_run _ _ _ H).
  destruct o as [p [rc |] [final on_term | c]]; cbn [returncode child pid]; try reflexivity.
  rewrite (bind_Ret _ _ _ _ _ (deref_run _ _ _ H)). reflexivity.
Qed.

Lemma wait_run proc w o :
  objects w !! proc = Some o ->
  wait proc w =
  match returncode o, child o with
  | Some c, _ => (Ret c, w)
  | None, Alive None _ => (Hang, w)
  | None, Exited c | None, Alive (Some c) _ =>
      (Ret c,
       log (EvReap (pid o) c)
         (set_objects
            (<[proc := {| pid := pid o; returncode := Some c; child := Exited c |}]>
               (objects w)) w))
  end.
Proof.
  intros H. unfold wait. rewrite (bind_Ret _ _ _ _ _ (deref_run _ _ _ H)).
  destruct o as [p [rc |] [[c |] on_term | c]]; reflexivity.
Qed.

(** One turn of the loop, on a handle that refers to [o]. *)
Lemma cleanup_entry_run proc u w o :
  objects w !! proc = Some o ->
  cleanup_entry (proc, u) w =
  (let '(r, o', evs) := settle o in
   (r, after evs (set_objects (<[proc := o']> (objects w)) w))).
Proof.
  intros Ho.
  assert (Hlt : (proc < length (objects w))%nat) by (eapply lookup_lt_Some; exact Ho).
  unfold cleanup_entry, settle. cbn [fst]. unfold bind at 1.
  rewrite (terminate_run _ _ _ Ho).
  destruct o as [p [c |] ch]; cbn [returncode child pid].
  - rewrite (bind_Ret _ _ _ c w) by (now rewrite (wait_run _ _ _ Ho)).
    cbn [after fold_left]. rewrite list_insert_id by exact Ho.
    now rewrite set_objects_id.
  - destruct ch as [final on_term | c].
    + unfold bind. erewrite wait_run
        by (cbn [log set_objects objects]; now apply list_lookup_insert_eq).
      cbn [returncode child pid log set_objects objects].
      destruct on_term as [c |]; cbn [deliver].
      * rewrite list_insert_insert_eq. reflexivity.
      * destruct final as [c |]; [| reflexivity].
        rewrite list_insert_insert_eq. reflexivity.
    + unfold bind. erewrite wait_run
        by (cbn [log set_objects objects]; now apply list_lookup_insert_eq).
      cbn [returncode child pid log set_objects objects]. reflexivity.
Qed.

Ltac in_list H :=
  repeat (apply elem_of_cons in H as [H | H];
          [try discriminate H; try (injection H as ->) |]);
  try (apply elem_of_nil in H; destruct H).

(** What [settle] guarantees, whatever the handle. *)
Lemma settle_facts o r o' evs :
  settle o = (r, o', evs) ->
  (forall e, r <> Raise e) /\
  pid o' = pid o /\
  (has_exited o = true ->
   r = Ret tt /\ has_exited o' = true /\ forall p, EvKill p ∉ evs) /\
  (r = Ret tt -> is_Some (returncode o')) /\
  (forall p, EvKill p ∈ evs -> p = pid o /\ has_exited o = false) /\
  (is_Some (returncode o) -> r = Ret tt /\ o' = o /\ evs = []).
Proof.
  unfold settle, has_exited.
  destruct o as [p [rc |] [[f |] [t |] | c]]; cbn [returncode child pid deliver];
    intros H; injection H as <- <- <-; cbn [returncode child pid];
    (split; [intros e; discriminate |]);
    (split; [reflexivity |]);
    (split; [first [discriminate
                   | intros _; split; [reflexivity |];
                     split; [reflexivity |]; intros q Hin; in_list Hin] |]);
    (split; [first [discriminate | intros _; eauto] |]);
    (split; [intros q Hin; in_list Hin; split; reflexivity |]);
    try (intros _; repeat split; reflexivity);
    try (intros [x Hx]; discriminate Hx).
Qed.

(** The world after one turn of the loop. *)
Lemma settled_world proc o' evs w :
  let w1 := after evs (set_objects (<[proc := o']> (objects w)) w) in
  trace w1 = trace w ++ evs /\
  bot_procs w1 = bot_procs w /\
  objects w1 = <[proc := o']> (objects w).
Proof.
  cbn zeta. rewrite trace_after, bot_procs_after, objects_after. now repeat split.
Qed.

(** The loop over handles that all refer to an object: it never raises, it
    leaves the registry alone, it signals only processes that had not
    exited, and it runs to its end when every process had exited. *)
Lemma for_each_cleanup_safe (l : list (nat * option string)) :
  forall w,
    Forall (fun e : nat * option string => is_Some (objects w !! e.1)) l ->
    exists res w' evs,
      for_each cleanup_entry l w = (res, w') /\
      (forall e, res <> Raise e) /\
      trace w' = trace w ++ evs /\
      bot_procs w' = bot_procs w /\
      (forall p, EvKill p ∈ evs ->
         exists e o, e ∈ l /\ objects w !! e.1 = Some o /\ pid o = p /\ has_exited o = false) /\
      ((forall e o, e ∈ l -> objects w !! e.1 = Some o -> has_exited o = true) ->
       res = Ret tt /\ forall p, EvKill p ∉ evs).
Proof.
  induction l as [| [proc u] l IH]; intros w Hok.
  - exists (Ret tt), w, []. cbn [for_each]. rewrite app_nil_r.
    repeat split; try reflexivity; try discriminate.
    + intros p Hin. now apply elem_of_nil in Hin.
    + intros p Hin. now apply elem_of_nil in Hin.
  - apply Forall_cons in Hok as [[o Ho] Hl]. cbn [fst] in Ho.
    destruct (settle o) as [[r o'] evs1] eqn:Hs.
    pose proof (cleanup_entry_run proc u w o Ho) as Hrun. rewrite Hs in Hrun.
    destruct (settled_world proc o' evs1 w) as (Htr & Hbp & Hobj).
    set (w1 := after evs1 (set_objects (<[proc := o']> (objects w)) w)) in *.
    destruct (settle_facts _ _ _ _ Hs) as (Hnr & Hpid & Hex & _ & Hkill & _).
    assert (Hlt : (proc < length (objects w))%nat) by (eapply lookup_lt_Some; exact Ho).
    destruct r as [[] | e |].
    + assert (Hl1 : Forall (fun e : nat * option string => is_Some (objects w1 !! e.1)) l).
      { eapply Forall_impl; [exact Hl |]. intros e He. apply lookup_lt_is_Some.
        rewrite Hobj, length_insert. now apply lookup_lt_is_Some. }
      destruct (IH w1 Hl1) as (res & w' & evs2 & Hfe & Hnr2 & Htr2 & Hbp2 & Hk2 & Hall2).
      exists res, w', (evs1 ++ evs2). split.
      { cbn [for_each]. rewrite (bind_Ret _ _ _ _ _ Hrun). exact Hfe. }
      split; [exact Hnr2 |].
      split; [rewrite Htr2, Htr; now rewrite app_assoc |].
      split; [now rewrite Hbp2 |].
      split.
      * intros p Hin. apply elem_of_app in Hin as [Hin | Hin].
        { destruct (Hkill p Hin) as [-> Hne].
          exists (proc, u), o. repeat split; try assumption. apply elem_of_cons; now left. }
        { destruct (Hk2 p Hin) as (e & o1 & He & Ho1 & Hp1 & Hx1).
          destruct (decide (e.1 = proc)) as [Heq | Hneq].
          - exists e, o. rewrite Heq in *. rewrite Hobj, list_lookup_insert_eq in Ho1 by exact Hlt.
            injection Ho1 as <-.
            repeat split; try assumption.
            + apply elem_of_cons; now right.
            + congruence.
            + destruct (has_exited o) eqn:Hxo; [| reflexivity].
              destruct (Hex eq_refl) as (_ & Hx' & _). congruence.
          - exists e, o1. rewrite Hobj, list_lookup_insert_ne in Ho1 by congruence.
            repeat split; try assumption. apply elem_of_cons; now right. }
      * intros Hall.
        assert (Hxo : has_exited o = true).
        { apply (Hall (proc, u) o); [apply elem_of_cons; now left | exact Ho]. }
        destruct (Hex Hxo) as (_ & Hx' & Hnk).
        destruct Hall2 as [Hres Hnk2].
        { intros e o1 He Ho1. destruct (decide (e.1 = proc)) as [Heq | Hneq].
          - rewrite Heq, Hobj, list_lookup_insert_eq in Ho1 by exact Hlt. congruence.
          - rewrite Hobj, list_lookup_insert_ne in Ho1 by congruence.
            apply (Hall e o1); [apply elem_of_cons; now right | exact Ho1]. }
        split; [exact Hres |].
        intros p Hin. apply elem_of_app in Hin as [Hin | Hin];
          [exact (Hnk p Hin) | exact (Hnk2 p Hin)].
    + now destruct (Hnr e).
    + exists Hang, w1, evs1. split.
      { cbn [for_each]. now rewrite (bind_Hang _ _ _ _ Hrun). }
      split; [discriminate |]. split; [exact Htr |]. split; [exact Hbp |].
      split.
      * intros p Hin. destruct (Hkill p Hin) as [-> Hne].
        exists (proc, u), o. repeat split; try assumption. apply elem_of_cons; now left.
      * intros Hall.
        assert (Hxo : has_exited o = true).
        { apply (Hall (proc, u) o); [apply elem_of_cons; now left | exact Ho]. }
        destruct (Hex Hxo) as (Habs & _). discriminate Habs.
Qed.

Lemma cleanup_entry_dangling proc u w :
  objects w !! proc = None ->
  cleanup_entry (proc, u) w = (Raise (PyError "dangling reference"), w).
Proof.
  intros H. unfold cleanup_entry, terminate, poll. cbn [fst].
  do 2 apply bind_Raise. now apply deref_dangling.
Qed.

(** When the loop has run to its end, every handle it visited knows its
    return code, and handles that knew theirs before are as they were. *)
Lemma for_each_cleanup_done (l : list (nat * option string)) :
  forall w w1,
    for_each cleanup_entry l w = (Ret tt, w1) ->
    bot_procs w1 = bot_procs w /\
    (forall e, e ∈ l -> exists o, objects w1 !! e.1 = Some o /\ is_Some (returncode o)) /\
    (forall q o, objects w !! q = Some o -> is_Some (returncode o) ->
                 objects w1 !! q = Some o).
Proof.
  induction l as [| [proc u] l IH]; intros w w1 H.
  - injection H as <-. repeat split; [| tauto].
    intros e He. now apply elem_of_nil in He.
  - cbn [for_each] in H. apply bind_inv_Ret in H as ([] & w' & Hstep & Hrest).
    destruct (objects w !! proc) as [o |] eqn:Ho;
      [| rewrite (cleanup_entry_dangling _ _ _ Ho) in Hstep; discriminate Hstep].
    rewrite (cleanup_entry_run _ _ _ _ Ho) in Hstep.
    destruct (settle o) as [[r o'] evs] eqn:Hs. injection Hstep as -> <-.
    destruct (settled_world proc o' evs w) as (_ & Hbp & Hobj).
    destruct (settle_facts _ _ _ _ Hs) as (_ & _ & _ & Hdone & _ & Hknown).
    assert (Hlt : (proc < length (objects w))%nat) by (eapply lookup_lt_Some; exact Ho).
    destruct (IH _ _ Hrest) as (Hbp1 & Hvisited & Hkept).
    split; [now rewrite Hbp1 |]. split.
    + intros e He. apply elem_of_cons in He as [-> | He]; [| now apply Hvisited].
      exists o'. split; [| now apply Hdone].
      apply Hkept; [| now apply Hdone].
      rewrite Hobj. now apply list_lookup_insert_eq.
    + intros q o0 Hq Hrc. apply Hkept; [| exact Hrc]. rewrite Hobj.
      destruct (decide (proc = q)) as [<- | Hne].
      * rewrite list_lookup_insert_eq by exact Hlt.
        assert (o0 = o) as -> by congruence.
        destruct (Hknown Hrc) as (_ & -> & _). reflexivity.
      * now rewrite list_lookup_insert_ne.
Qed.

(** Over handles that all know their return code the loop does nothing. *)
Lemma for_each_cleanup_idle (l : list (nat * option string)) :
  forall w,
    (forall e, e ∈ l -> exists o, objects w !! e.1 = Some o /\ is_Some (returncode o)) ->
    for_each cleanup_entry l w = (Ret tt, w).
Proof.
  induction l as [| [proc u] l IH]; intros w Hall; [reflexivity |].
  destruct (Hall (proc, u)) as (o & Ho & Hrc); [apply elem_of_cons; now left |].
  cbn [fst] in Ho. cbn [for_each].
  assert (Hstep : cleanup_entry (proc, u) w = (Ret tt, w)).
  { rewrite (cleanup_entry_run _ _ _ _ Ho).
    destruct (settle o) as [[r o'] evs] eqn:Hs.
    destruct (settle_facts _ _ _ _ Hs) as (_ & _ & _ & _ & _ & Hknown).
    destruct (Hknown Hrc) as (-> & -> & ->). cbn [after fold_left].
    rewrite list_insert_id by exact Ho. now rewrite set_objects_id. }
  rewrite (bind_Ret _ _ _ _ _ Hstep). apply IH.
  intros e He. apply Hall. apply elem_of_cons; now right.
Qed.

Lemma cleanup_unfold w :
  cleanup w = for_each cleanup_entry (dict_values (bot_procs w)) w.
Proof. reflexivity. Qed.

(** C5, as the code has it.  [cleanup()] never takes anything out of the
    registry: when one call has completed, the registry holds the same
    records as before, and each registered handle knows the return code of
    its process.  A second call right after it therefore completes without
    error and is a no-op: the world after it is the world before it, so no
    signal is sent and no process is waited for. *)
Theorem cleanup_twice w w1 :
  cleanup w = (Ret tt, w1) ->
  bot_procs w1 = bot_procs w /\
  (forall k proc u, (k, (proc, u)) ∈ bot_procs w1 ->
     exists o, objects w1 !! proc = Some o /\ is_Some (returncode o)) /\
  cleanup w1 = (Ret tt, w1).
Proof.
  rewrite !cleanup_unfold. intros H.
  destruct (for_each_cleanup_done _ _ _ H) as (Hbp & Hvisited & _).
  assert (Hall : forall e, e ∈ dict_values (bot_procs w1) ->
            exists o, objects w1 !! e.1 = Some o /\ is_Some (returncode o)).
  { rewrite Hbp. exact Hvisited. }
  split; [exact Hbp |]. split.
  - intros k proc u Hin. apply (Hall (proc, u)).
    unfold dict_values. apply list_elem_of_fmap. now exists (k, (proc, u)).
  - now apply for_each_cleanup_idle.
Qed.

(** C5, as stated, fails: after a completed [cleanup()] on a service with
    one session the registry still holds that session. *)
Lemma cleanup_keeps_registry :
  cleanup one_session = (Ret tt, cleaned_up) /\
  bot_procs cleaned_up = [ (4242, (0%nat, Some "https://x.example/room1")) ] /\
  ~ (forall w w1, cleanup w = (Ret tt, w1) -> bot_procs w1 = []).
Proof.
  assert (H : cleanup one_session = (Ret tt, cleaned_up)) by (vm_compute; reflexivity).
  split; [exact H |]. split; [reflexivity |].
  intros Hall. specialize (Hall one_session cleaned_up H). discriminate Hall.
Qed.

(** C8. With an empty registry [cleanup()] completes and changes nothing.
    A handle whose process has already exited is terminated without a
    signal and without an error, and waiting for it returns at once.  Over
    a whole registry, [cleanup()] raises nothing, signals only processes
    that had not exited, and completes when all of them had. *)
Theorem cleanup_tolerates_exited w :
  registry_ok w ->
  (bot_procs w = [] -> cleanup w = (Ret tt, w)) /\
  (forall k proc u o,
     (k, (proc, u)) ∈ bot_procs w -> objects w !! proc = Some o ->
     has_exited o = true ->
     exists w1 c,
       terminate proc w = (Ret tt, w1) /\
       (forall p, EvKill p ∈ trace w1 -> EvKill p ∈ trace w) /\
       wait proc w1 = (Ret c, w1)) /\
  (exists res w' evs,
     cleanup w = (res, w') /\
     (forall e, res <> Raise e) /\
     trace w' = trace w ++ evs /\
     bot_procs w' = bot_procs w /\
     (forall p, EvKill p ∈ evs ->
        exists k proc u o,
          (k, (proc, u)) ∈ bot_procs w /\ objects w !! proc = Some o /\
          pid o = p /\ has_exited o = false) /\
     ((forall k proc u o,
         (k, (proc, u)) ∈ bot_procs w -> objects w !! proc = Some o ->
         has_exited o = true) ->
      res = Ret tt /\ forall p, EvKill p ∉ evs)).
Proof.
  intros Hok. split; [| split].
  - intros Hempty. rewrite cleanup_unfold, Hempty. reflexivity.
  - intros k proc u o _ Ho Hx.
    assert (Hlt : (proc < length (objects w))%nat) by (eapply lookup_lt_Some; exact Ho).
    rewrite (terminate_run _ _ _ Ho). unfold has_exited in Hx.
    destruct o as [p [rc |] [final on_term | c]]; cbn [returncode child pid] in *;
      try discriminate Hx.
    + exists w, rc. split; [reflexivity |]. split; [tauto |].
      now rewrite (wait_run _ _ _ Ho).
    + exists w, rc. split; [reflexivity |]. split; [tauto |].
      now rewrite (wait_run _ _ _ Ho).
    + eexists _, c. split; [reflexivity |]. split.
      * cbn [log set_objects trace]. intros q Hin.
        apply elem_of_app in Hin as [Hin | Hin]; [exact Hin | in_list Hin].
      * erewrite wait_run
          by (cbn [log set_objects objects]; now apply list_lookup_insert_eq).
        reflexivity.
  - destruct (for_each_cleanup_safe _ w Hok)
      as (res & w' & evs & Hrun & Hnr & Htr & Hbp & Hkill & Hall).
    exists res, w', evs. rewrite cleanup_unfold.
    split; [exact Hrun |]. split; [exact Hnr |]. split; [exact Htr |].
    split; [exact Hbp |]. split.
    + intros p Hin. destruct (Hkill p Hin) as (e & o & He & Ho & Hp & Hx).
      apply list_elem_of_fmap in He as ([k [proc u]] & -> & He).
      now exists k, proc, u, o.
    + intros Hexited. apply Hall. intros e o He Ho.
      apply list_elem_of_fmap in He as ([k [proc u]] & -> & He).
      now apply (Hexited k proc u o).
Qed.

(** ** The registry stays well formed *)

Lemma registry_ok_initial vars : registry_ok (initial vars).
Proof. constructor. Qed.

Lemma for_each_cleanup_frame (l : list (nat * option string)) :
  forall w,
    bot_procs (for_each cleanup_entry l w).2 = bot_procs w /\
    length (objects (for_each cleanup_entry l w).2) = length (objects w).
Proof.
  induction l as [| [proc u] l IH]; intros w; [now split |].
  cbn [for_each].
  destruct (objects w !! proc) as [o |] eqn:Ho.
  - pose proof (cleanup_entry_run proc u w o Ho) as Hrun.
    destruct (settle o) as [[r o'] evs].
    destruct (settled_world proc o' evs w) as (_ & Hbp & Hobj).
    destruct r as [[] | e |].
    + rewrite (bind_Ret _ _ _ _ _ Hrun).
      destruct (IH (after evs (set_objects (<[proc := o']> (objects w)) w))) as [-> ->].
      rewrite Hbp, Hobj, length_insert. now split.
    + rewrite (bind_Raise _ _ _ _ _ Hrun). cbn [snd].
      rewrite Hbp, Hobj, length_insert. now split.
    + rewrite (bind_Hang _ _ _ _ Hrun). cbn [snd].
      rewrite Hbp, Hobj, length_insert. now split.
  - rewrite (bind_Raise _ _ _ _ _ (cleanup_entry_dangling _ _ _ Ho)). now split.
Qed.

(** [cleanup()] keeps the registry's handles valid. *)
Lemma registry_ok_cleanup w : registry_ok w -> registry_ok (cleanup w).2.
Proof.
  unfold registry_ok. rewrite cleanup_unfold. intros Hok.
  destruct (for_each_cleanup_frame (dict_values (bot_procs w)) w) as [-> Hlen].
  eapply Forall_impl; [exact Hok |]. intros e He.
  apply lookup_lt_is_Some. rewrite Hlen. now apply lookup_lt_is_Some.
Qed.

(** So does a process that exits on its own. *)
Lemma registry_ok_child_exits proc code w :
  registry_ok w -> registry_ok (child_exits proc code w).
Proof.
  unfold registry_ok, child_exits. intros Hok.
  destruct (objects w !! proc); [| exact Hok].
  cbn [set_objects bot_procs objects].
  eapply Forall_impl; [exact Hok |]. intros e He.
  apply lookup_lt_is_Some. rewrite length_insert. now apply lookup_lt_is_Some.
Qed.

(** ** The theorems at work on the sample runs *)


Lemma connect_success_nonempty_witness :
  POST_connect scenario_env started = (Some scenario_response, one_session) /\
  status scenario_response = 200 /\
  exists room_url token : string,
    content scenario_response =
      JsonBody (JObj [ ("room_url", JStr room_url); ("token", JStr token) ]) /\
    room_url <> "" /\ token <> "".
Proof.
  assert (H : POST_connect scenario_env started = (Some scenario_response, one_session))
    by (vm_compute; reflexivity).
  split; [exact H |]. split; [reflexivity |].
  exact (connect_success_nonempty scenario_env started scenario_response one_session
           H eq_refl).
Defined.

Lemma connect_room_failure_witness :
  daily_helpers started !! "rest" = Some default_helper /\
  truthy (Some "") = false /\
  POST_connect no_url_env started =
    (Some (error_response "Failed to create room"), room_asked started) /\
  trace (room_asked started) =
    trace started ++ [ EvPrint "Creating room for RTVI connection"; EvCreateRoom ] /\
  bot_procs (room_asked started) = bot_procs started /\
  objects (room_asked started) = objects started.
Proof.
  assert (H : daily_helpers started !! "rest" = Some default_helper)
    by (vm_compute; reflexivity).
  split; [exact H |]. split; [reflexivity |].
  exact (connect_room_failure no_url_env started default_helper {| url := Some "" |}
           H eq_refl eq_refl).
Defined.

Lemma connect_token_failure_witness :
  daily_helpers started !! "rest" = Some default_helper /\
  truthy (Some "https://x.example/room1") = true /\
  truthy None = false /\
  exists room_url : string,
    Some "https://x.example/room1" = Some room_url /\
    POST_connect no_token_env started =
      (Some (error_response ("Failed to get token for room: " +:+ room_url)),
       token_asked (Some "https://x.example/room1") started) /\
    trace (token_asked (Some "https://x.example/room1") started) =
      trace started ++ [ EvPrint "Creating room for RTVI connection"; EvCreateRoom;
                         EvGetToken (Some "https://x.example/room1") ] /\
    bot_procs (token_asked (Some "https://x.example/room1") started) = bot_procs started /\
    objects (token_asked (Some "https://x.example/room1") started) = objects started.
Proof.
  assert (H : daily_helpers started !! "rest" = Some default_helper)
    by (vm_compute; reflexivity).
  split; [exact H |]. split; [reflexivity |]. split; [reflexivity |].
  exact (connect_token_failure no_token_env started default_helper
           {| url := Some "https://x.example/room1" |} None
           H eq_refl eq_refl eq_refl eq_refl).
Defined.

Lemma connect_answers_200_for_dead_worker_witness :
  daily_helpers started !! "rest" = Some default_helper /\
  POST_connect dead_worker_env started =
    (Some scenario_response,
     registered dead_worker_env (Some "https://x.example/room1") (Some "tok123")
       4242 (Exited 127) started) /\
  status scenario_response = 200 /\
  dict_get 4242
    (bot_procs (registered dead_worker_env (Some "https://x.example/room1")
                  (Some "tok123") 4242 (Exited 127) started))
    = Some (length (objects started), Some "https://x.example/room1") /\
  objects (registered dead_worker_env (Some "https://x.example/room1") (Some "tok123")
             4242 (Exited 127) started) !! length (objects started)
    = Some {| pid := 4242; returncode := None; child := Exited 127 |}.
Proof.
  assert (H : daily_helpers started !! "rest" = Some default_helper)
    by (vm_compute; reflexivity).
  split; [exact H |].
  destruct (connect_answers_200_for_dead_worker dead_worker_env started default_helper
              {| url := Some "https://x.example/room1" |} (Some "tok123") 4242 127
              H eq_refl eq_refl eq_refl eq_refl eq_refl) as (Hrun & Hreg & Hobj).
  split; [exact Hrun |]. split; [reflexivity |]. split; [exact Hreg | exact Hobj].
Defined.

Lemma connect_launch_failure_witness :
  daily_helpers started !! "rest" = Some default_helper /\
  POST_connect no_spawn_env started =
    (Some (error_response
             "Failed to start subprocess: [Errno 11] Resource temporarily unavailable"),
     spawning no_spawn_env (Some "https://x.example/room1") (Some "tok123") started) /\
  POST_connect no_exec_env started =
    (Some (error_response
             "Failed to start subprocess: [Errno 2] No such file or directory: '/app'"),
     log (EvReap 4242 255)
       (spawning no_exec_env (Some "https://x.example/room1") (Some "tok123") started)) /\
  bot_procs (spawning no_spawn_env (Some "https://x.example/room1") (Some "tok123") started)
    = bot_procs started /\
  objects (spawning no_spawn_env (Some "https://x.example/room1") (Some "tok123") started)
    = objects started.
Proof.
  assert (H : daily_helpers started !! "rest" = Some default_helper)
    by (vm_compute; reflexivity).
  split; [exact H |].
  destruct (connect_launch_failure no_spawn_env started default_helper
              {| url := Some "https://x.example/room1" |} (Some "tok123")
              "[Errno 11] Resource temporarily unavailable"
              H eq_refl eq_refl eq_refl eq_refl) as (Hfork & _ & Hbp & Hobj).
  destruct (connect_launch_failure no_exec_env started default_helper
              {| url := Some "https://x.example/room1" |} (Some "tok123")
              "[Errno 2] No such file or directory: '/app'"
              H eq_refl eq_refl eq_refl eq_refl) as (_ & Hexec & _ & _).
  split; [exact (Hfork eq_refl) |]. split; [exact (Hexec 4242 255 eq_refl) |].
  split; [exact Hbp | exact Hobj].
Defined.

Lemma cleanup_twice_witness :
  cleanup one_session = (Ret tt, cleaned_up) /\
  bot_procs cleaned_up = bot_procs one_session /\
  (forall k proc u, (k, (proc, u)) ∈ bot_procs cleaned_up ->
     exists o, objects cleaned_up !! proc = Some o /\ is_Some (returncode o)) /\
  cleanup cleaned_up = (Ret tt, cleaned_up).
Proof.
  assert (H : cleanup one_session = (Ret tt, cleaned_up)) by (vm_compute; reflexivity).
  split; [exact H |].
  exact (cleanup_twice one_session cleaned_up H).
Defined.

Lemma root_reports_daily_key_witness :
  environ with_daily_key !! "DAILY_API_KEY" = Some "k" /\
  environ started !! "DAILY_API_KEY" = None /\
  (exists r, GET_root with_daily_key = (Some r, with_daily_key) /\
             body_field "daily_api_configured" r = Some (JBool true)) /\
  (exists r, GET_root started = (Some r, started) /\
             body_field "daily_api_configured" r = Some (JBool false)).
Proof.
  assert (Hk : environ with_daily_key !! "DAILY_API_KEY" = Some "k")
    by (vm_compute; reflexivity).
  assert (Hn : environ started !! "DAILY_API_KEY" = None) by (vm_compute; reflexivity).
  split; [exact Hk |]. split; [exact Hn |]. split.
  - destruct (root_reports_daily_key with_daily_key) as (r & Hrun & _ & _ & Hset & _).
    exists r. split; [exact Hrun |]. apply (Hset "k" Hk). discriminate.
  - destruct (root_reports_daily_key started) as (r & Hrun & _ & Hunset & _).
    exists r. split; [exact Hrun |]. exact (Hunset Hn).
Defined.

Lemma cleanup_tolerates_exited_witness :
  registry_ok one_exited_session /\
  (exists o, (4242, (0%nat, Some "https://x.example/room1")) ∈ bot_procs one_exited_session /\
             objects one_exited_session !! 0%nat = Some o /\ has_exited o = true) /\
  (exists w1 c,
     terminate 0 one_exited_session = (Ret tt, w1) /\
     (forall p, EvKill p ∈ trace w1 -> EvKill p ∈ trace one_exited_session) /\
     wait 0 w1 = (Ret c, w1)) /\
  (exists res w' evs,
     cleanup one_exited_session = (res, w') /\
     (forall e, res <> Raise e) /\
     trace w' = trace one_exited_session ++ evs /\
     bot_procs w' = bot_procs one_exited_session /\
     (forall p, EvKill p ∈ evs ->
        exists k proc u o,
          (k, (proc, u)) ∈ bot_procs one_exited_session /\
          objects one_exited_session !! proc = Some o /\
          pid o = p /\ has_exited o = false) /\
     ((forall k proc u o,
         (k, (proc, u)) ∈ bot_procs one_exited_session ->
         objects one_exited_session !! proc = Some o ->
         has_exited o = true) ->
      res = Ret tt /\ forall p, EvKill p ∉ evs)).
Proof.
  assert (Hok : registry_ok one_exited_session).
  { unfold registry_ok. vm_compute. repeat constructor. eexists. reflexivity. }
  assert (Hin : (4242, (0%nat, Some "https://x.example/room1"))
                  ∈ bot_procs one_exited_session).
  { vm_compute. apply elem_of_cons. now left. }
  assert (Ho : objects one_exited_session !! 0%nat
               = Some {| pid := 4242; returncode := None; child := Exited 0 |})
    by (vm_compute; reflexivity).
  destruct (cleanup_tolerates_exited one_exited_session Hok) as (_ & Hone & Hall).
  split; [exact Hok |]. split.
  { eexists. split; [exact Hin |]. split; [exact Ho | reflexivity]. }
  split; [| exact Hall].
  exact (Hone _ _ _ _ Hin Ho eq_refl).
Defined.

Lemma connect_registers_session_witness :
  POST_connect scenario_env one_session = (Some scenario_response, same_pid_again) /\
  status scenario_response = 200 /\
  is_Some (dict_get 4242 (bot_procs one_session)) /\
  (exists (room_url token : string) (o : Popen),
     let proc := length (objects one_session) in
     scenario_response =
       JSONResponse (JObj [ ("room_url", JStr room_url); ("token", JStr token) ]) /\
     objects same_pid_again = objects one_session ++ [o] /\
     objects same_pid_again !! proc = Some o /\
     returncode o = None /\
     bot_procs same_pid_again =
       dict_set (pid o) (proc, Some room_url) (bot_procs one_session) /\
     dict_get (pid o) (bot_procs same_pid_again) = Some (proc, Some room_url) /\
     (forall k, k <> pid o ->
        dict_get k (bot_procs same_pid_again) = dict_get k (bot_procs one_session)) /\
     (dict_get (pid o) (bot_procs one_session) = None ->
      length (bot_procs same_pid_again) = S (length (bot_procs one_session))) /\
     (is_Some (dict_get (pid o) (bot_procs one_session)) ->
      length (bot_procs same_pid_again) = length (bot_procs one_session))) /\
  (is_Some (dict_get 4242 (bot_procs (POST_connect scenario_env one_session).2)) /\
   is_Some (dict_get 4242 (bot_procs (GET_root one_session).2)) /\
   is_Some (dict_get 4242 (bot_procs (GET_health one_session).2))).
Proof.
  assert (H : POST_connect scenario_env one_session
              = (Some scenario_response, same_pid_again)) by (vm_compute; reflexivity).
  assert (Hk : is_Some (dict_get 4242 (bot_procs one_session)))
    by (vm_compute; eexists; reflexivity).
  destruct (connect_registers_session scenario_env) as [Hone Hkeep].
  split; [exact H |]. split; [reflexivity |]. split; [exact Hk |]. split.
  - exact (Hone one_session scenario_response same_pid_again H eq_refl).
  - exact (Hkeep one_session 4242 Hk).
Defined.

(** * Beyond the claims: every outcome of a request, the shutdown path, and
    what holds along any run of the service *)

(** ** More about the Python dict *)

Lemma dict_set_keys_fresh {V} k (v : V) d :
  k ∉ map fst d -> map fst (dict_set k v d) = map fst d ++ [k].
Proof.
  induction d as [| [k' v'] d IH]; cbn [dict_set map fst app]; [reflexivity |].
  intros Hk. apply not_elem_of_cons in Hk as [Hne Hk].
  rewrite decide_False by congruence. cbn [map fst]. now rewrite IH.
Qed.

Lemma dict_set_keys_present {V} k (v : V) d :
  k ∈ map fst d -> map fst (dict_set k v d) = map fst d.
Proof.
  induction d as [| [k' v'] d IH]; cbn [dict_set map fst].
  - intros Hk. now apply elem_of_nil in Hk.
  - intros Hk. destruct (decide (k' = k)) as [-> | Hne]; [reflexivity |].
    cbn [map fst]. apply elem_of_cons in Hk as [Hk | Hk]; [congruence |].
    now rewrite IH.
Qed.

(** ** All outcomes of POST /connect *)

Ltac in_events H :=
  cbn [app] in H;
  repeat (apply elem_of_cons in H as [H | H]; [try discriminate H |]);
  try (apply elem_of_nil in H; destruct H).

Ltac unfold_worlds :=
  unfold registered, spawning, token_asked, room_asked in *;
  cbn [after fold_left log set_objects set_bot_procs
       trace objects bot_procs daily_helpers environ sessions] in *.

Section Outcomes.

Variable env : Env.

(** [POST /connect] ends in exactly one of these ways. *)
Lemma POST_connect_outcome w :
  ConnectOutcome env w (POST_connect env w).1 (POST_connect env w).2.
Proof.
  pose proof (NoHelper env w) as K1.
  pose proof (RoomRaised env w) as K2.
  pose proof (RoomSilent env w) as K3.
  pose proof (RoomUnusable env w) as K4.
  pose proof (TokenRaised env w) as K5.
  pose proof (TokenSilent env w) as K6.
  pose proof (TokenUnusable env w) as K7.
  pose proof (SpawnFailed env w) as K8.
  pose proof (Connected env w) as K9.
  pose proof (SpawnReaped env w) as K10.
  pose proof (SpawnSilent env w) as K11.
  destruct (POST_connect env w) as [r w'] eqn:H. cbn [fst snd]. revert H.
  unfold POST_connect, serve, as_json. unfold bind at 1.
  rewrite bot_connect_run, create_room_and_token_run.
  unfold_worlds.
  destruct (daily_helpers w !! "rest") as [rest |]; cbn zeta;
    [| intros H; injection H as <- <-; now apply K1].
  specialize (K2 rest). specialize (K3 rest). specialize (K4 rest).
  specialize (K5 rest). specialize (K6 rest). specialize (K7 rest).
  specialize (K8 rest). specialize (K9 rest).
  specialize (K10 rest). specialize (K11 rest).
  destruct (rest_create_room env rest _) as [room | msg |];
    [| intros H; injection H as <- <-; now eapply K2
     | intros H; injection H as <- <-; now apply K3].
  specialize (K4 room). specialize (K5 room). specialize (K6 room).
  specialize (K7 room). specialize (K8 room). specialize (K9 room).
  specialize (K10 room). specialize (K11 room).
  destruct (truthy (url room));
    [| intros H; injection H as <- <-; now apply K4].
  destruct (rest_get_token env rest _ _) as [token | msg |];
    [| intros H; injection H as <- <-; now eapply K5
     | intros H; injection H as <- <-; now apply K6].
  specialize (K7 token). specialize (K8 token). specialize (K9 token).
  specialize (K10 token). specialize (K11 token).
  destruct (truthy token);
    [| intros H; injection H as <- <-; now apply K7].
  destruct (os_spawn env _ _ _) as [p c | msg | msg p c |];
    intros H; injection H as <- <-;
    [now eapply K9 | now eapply K8 | now eapply K10 | now apply K11].
Qed.

Ltac connect_outcome w r w' :=
  let Hout := fresh "Hout" in
  pose proof (POST_connect_outcome w) as Hout;
  destruct (POST_connect env w) as [r w']; cbn [fst snd] in Hout.

(** X1. Before startup [daily_helpers] has no ["rest"]: the [KeyError] is not
    caught, the caller gets the plain 500 of the framework, and nothing was
    asked of the Daily API or of the operating system. *)
Theorem connect_before_startup w :
  daily_helpers w !! "rest" = None ->
  POST_connect env w =
    (Some internal_error, log (EvPrint "Creating room for RTVI connection") w).
Proof.
  intros Hno. connect_outcome w r w'. destruct Hout; congruence.
Qed.

(** X2. An exception raised by the Daily helper in [create_room] is not caught:
    plain 500 without the message, no token request, no process. *)
Theorem connect_create_room_raises w rest msg :
  daily_helpers w !! "rest" = Some rest ->
  rest_create_room env rest (trace (room_asked w)) = Failed msg ->
  POST_connect env w = (Some internal_error, room_asked w).
Proof.
  intros Hrest Hroom. connect_outcome w r w'. destruct Hout; congruence.
Qed.

(** X3. The same for [get_token]: plain 500, and no process is started for the
    room that was already created. *)
Theorem connect_get_token_raises w rest room msg :
  daily_helpers w !! "rest" = Some rest ->
  rest_create_room env rest (trace (room_asked w)) = Returned room ->
  truthy (url room) = true ->
  rest_get_token env rest (trace (token_asked (url room) w)) (url room) = Failed msg ->
  POST_connect env w = (Some internal_error, token_asked (url room) w).
Proof.
  intros Hrest Hroom Hu Htoken. connect_outcome w r w'. destruct Hout; congruence.
Qed.

(** X4. Three calls of the handler can fail to return: the two calls to
    the Daily API and the start of the process.  When one of them does not
    return, the request gets no answer, and nothing has been registered. *)
Theorem connect_unanswered w rest :
  daily_helpers w !! "rest" = Some rest ->
  (rest_create_room env rest (trace (room_asked w)) = NoAnswer \/
   (exists room,
      rest_create_room env rest (trace (room_asked w)) = Returned room /\
      truthy (url room) = true /\
      rest_get_token env rest (trace (token_asked (url room) w)) (url room) = NoAnswer) \/
   (exists room token,
      rest_create_room env rest (trace (room_asked w)) = Returned room /\
      truthy (url room) = true /\
      rest_get_token env rest (trace (token_asked (url room) w)) (url room)
        = Returned token /\
      truthy token = true /\
      os_spawn env (trace (spawning env (url room) token w))
        [bot_command "bot-gemini" (url room) token] (module_dir env) = SpawnBlocked)) ->
  (POST_connect env w).1 = None /\
  bot_procs (POST_connect env w).2 = bot_procs w /\
  objects (POST_connect env w).2 = objects w.
Proof.
  intros Hrest Hcase. connect_outcome w r w'. cbn [fst snd].
  destruct Hcase as [Hroom | [(room & Hroom & Hu & Htoken)
                              | (room & token & Hroom & Hu & Htoken & Ht & Hspawn)]];
    destruct Hout; try congruence; unfold_worlds; repeat split; reflexivity.
Qed.

(** X5. All or nothing: the status is 200 or 500, and unless it is 200 the
    registry and the process objects are exactly as before. *)
Theorem connect_all_or_nothing w r w' :
  POST_connect env w = (r, w') ->
  (exists resp, r = Some resp /\ status resp = 200) \/
  ((r = None \/ exists resp, r = Some resp /\ status resp = 500) /\
   bot_procs w' = bot_procs w /\ objects w' = objects w).
Proof.
  intros H. pose proof (POST_connect_outcome w) as Hout. rewrite H in Hout.
  cbn [fst snd] in Hout.
  destruct Hout; unfold_worlds;
    try (right; split; [| split; reflexivity]);
    try (left; reflexivity);
    try (right; eexists; split; reflexivity).
  left. eexists. split; reflexivity.
Qed.

(** X6. Serving a [POST /connect] never touches a process that exists
    already: every [Popen] object is as before, no signal is sent, and
    environment, helpers and sessions stay as they are.  The one exit
    status that can be collected is that of the child this very call has
    forked, when it could not execute and [Popen] reaps it before raising.
    A bot that has exited goes unnoticed. *)
Theorem connect_leaves_processes_alone w :
  (forall q o, objects w !! q = Some o ->
               objects (POST_connect env w).2 !! q = Some o) /\
  environ (POST_connect env w).2 = environ w /\
  daily_helpers (POST_connect env w).2 = daily_helpers w /\
  sessions (POST_connect env w).2 = sessions w /\
  exists evs,
    trace (POST_connect env w).2 = trace w ++ evs /\
    (forall p, EvKill p ∉ evs) /\
    (forall p c, EvReap p c ∈ evs ->
       exists room token cause,
         os_spawn env (trace (spawning env (url room) token w))
           [bot_command "bot-gemini" (url room) token] (module_dir env)
           = ExecFailed cause p c).
Proof.
  connect_outcome w r w'. cbn [snd].
  destruct Hout as [| | | | | | | | | | ];
    (split; [unfold_worlds; intros q o Hq; try exact Hq; now apply lookup_app_l_Some |]);
    (split; [unfold_worlds; reflexivity |]);
    (split; [unfold_worlds; reflexivity |]);
    (split; [unfold_worlds; reflexivity |]);
    (eexists; split;
       [unfold registered, spawning, token_asked, room_asked; cbn [log trace];
        rewrite ?trace_after; cbn [set_bot_procs set_objects trace];
        rewrite ?trace_after, <- ?app_assoc; reflexivity |]);
    (split; [intros q Hin; in_events Hin |]);
    intros q code Hin; in_events Hin.
  injection Hin as -> ->. eauto.
Qed.

(** X7. Where a successful [POST /connect] puts its record: a pid that is new
    goes to the end of the registry's iteration order, a pid that is
    registered already keeps the place it has. *)
Theorem connect_registry_order w r w' :
  POST_connect env w = (Some r, w') -> status r = 200 ->
  exists o,
    objects w' !! length (objects w) = Some o /\
    (pid o ∉ keys (bot_procs w) ->
     keys (bot_procs w') = keys (bot_procs w) ++ [pid o]) /\
    (pid o ∈ keys (bot_procs w) ->
     keys (bot_procs w') = keys (bot_procs w)).
Proof.
  intros H Hs. pose proof (POST_connect_outcome w) as Hout. rewrite H in Hout.
  cbn [fst snd] in Hout.
  inversion Hout; subst; try discriminate Hs.
  exists {| pid := p; returncode := None; child := c |}. unfold_worlds. cbn [pid].
  split; [now apply list_lookup_middle |].
  split; intros Hk; [now apply dict_set_keys_fresh | now apply dict_set_keys_present].
Qed.

End Outcomes.

(** ** The shutdown path *)

Lemma environ_after evs w : environ (after evs w) = environ w.
Proof. revert w. induction evs as [| e evs IH]; intros w; simpl; [| rewrite IH]; reflexivity. Qed.

Lemma daily_helpers_after evs w : daily_helpers (after evs w) = daily_helpers w.
Proof. revert w. induction evs as [| e evs IH]; intros w; simpl; [| rewrite IH]; reflexivity. Qed.

Lemma sessions_after evs w : sessions (after evs w) = sessions w.
Proof. revert w. induction evs as [| e evs IH]; intros w; simpl; [| rewrite IH]; reflexivity. Qed.

Lemma for_each_app {A} (f : A -> M unit) l1 l2 w :
  for_each f (l1 ++ l2) w = bind (for_each f l1) (fun _ => for_each f l2) w.
Proof.
  revert w. induction l1 as [| x l1 IH]; intros w; [reflexivity |].
  cbn [app for_each]. unfold bind.
  destruct (f x w) as [[[] | e |] w1]; [| reflexivity | reflexivity].
  rewrite IH. reflexivity.
Qed.

Lemma handles_values d : map fst (dict_values d) = handles d.
Proof. unfold dict_values, handles. rewrite map_map. reflexivity. Qed.

(** One turn of the loop in terms of [will_exit] and [termination_events]. *)
Lemma cleanup_entry_step proc u w o :
  objects w !! proc = Some o ->
  exists o',
    cleanup_entry (proc, u) w =
      (if will_exit o then Ret tt else Hang,
       after (termination_events o) (set_objects (<[proc := o']> (objects w)) w)) /\
    pid o' = pid o /\
    will_exit o' = will_exit o /\
    (will_exit o = true -> is_Some (returncode o')) /\
    (will_exit o = false -> o' = o).
Proof.
  intros Ho. rewrite (cleanup_entry_run _ _ _ _ Ho).
  unfold settle, will_exit, termination_events.
  destruct o as [p [rc |] [[f |] [t |] | c]]; cbn [returncode child pid deliver];
    eexists; (split; [reflexivity |]); cbn [returncode child pid];
    (split; [reflexivity |]); (split; [reflexivity |]);
    split; intros H; try discriminate H; eauto.
Qed.

(** What the loop leaves alone. *)
Lemma for_each_cleanup_effect (l : list (nat * option string)) :
  forall w,
    environ (for_each cleanup_entry l w).2 = environ w /\
    daily_helpers (for_each cleanup_entry l w).2 = daily_helpers w /\
    sessions (for_each cleanup_entry l w).2 = sessions w /\
    (forall q o, objects w !! q = Some o ->
       exists o', objects (for_each cleanup_entry l w).2 !! q = Some o' /\
                  pid o' = pid o /\ will_exit o' = will_exit o) /\
    (forall q, q ∉ map fst l ->
       objects (for_each cleanup_entry l w).2 !! q = objects w !! q).
Proof.
  induction l as [| [proc u] l IH]; intros w.
  - cbn [for_each ret snd]. repeat split; eauto.
  - destruct (objects w !! proc) as [o |] eqn:Ho.
    + destruct (cleanup_entry_step proc u w o Ho) as (o' & Hstep & Hpid & Hwill & _ & _).
      assert (Hlt : (proc < length (objects w))%nat) by (eapply lookup_lt_Some; exact Ho).
      set (w1 := after (termination_events o)
                   (set_objects (<[proc := o']> (objects w)) w)) in *.
      assert (Henv : environ w1 = environ w) by (unfold w1; now rewrite environ_after).
      assert (Hdh : daily_helpers w1 = daily_helpers w)
        by (unfold w1; now rewrite daily_helpers_after).
      assert (Hse : sessions w1 = sessions w) by (unfold w1; now rewrite sessions_after).
      assert (Hobj : objects w1 = <[proc := o']> (objects w))
        by (unfold w1; now rewrite objects_after).
      assert (Hkeep : forall q o0, objects w !! q = Some o0 ->
                exists o1, objects w1 !! q = Some o1 /\
                           pid o1 = pid o0 /\ will_exit o1 = will_exit o0).
      { intros q o0 Hq. rewrite Hobj. destruct (decide (proc = q)) as [<- | Hne].
        - rewrite list_lookup_insert_eq by exact Hlt. exists o'.
          assert (o0 = o) as -> by congruence. now repeat split.
        - rewrite list_lookup_insert_ne by exact Hne. now exists o0. }
      assert (Hother : forall q, q <> proc -> objects w1 !! q = objects w !! q).
      { intros q Hne. rewrite Hobj. now apply list_lookup_insert_ne. }
      destruct (will_exit o).
      * assert (Heq : for_each cleanup_entry ((proc, u) :: l) w = for_each cleanup_entry l w1)
          by (cbn [for_each]; now rewrite (bind_Ret _ _ _ _ _ Hstep)).
        rewrite Heq. destruct (IH w1) as (-> & -> & -> & Hk1 & Ho1).
        repeat split; try assumption.
        -- intros q o0 Hq. destruct (Hkeep q o0 Hq) as (o1 & Hq1 & Hp1 & Hw1).
           destruct (Hk1 q o1 Hq1) as (o2 & Hq2 & Hp2 & Hw2).
           exists o2. repeat split; congruence.
        -- intros q Hq. cbn [map fst] in Hq. apply not_elem_of_cons in Hq as [Hne Hq].
           rewrite (Ho1 q Hq). now apply Hother.
      * assert (Heq : for_each cleanup_entry ((proc, u) :: l) w = (Hang, w1))
          by (cbn [for_each]; now rewrite (bind_Hang _ _ _ _ Hstep)).
        rewrite Heq. cbn [snd]. repeat split; try assumption.
        intros q Hq. cbn [map fst] in Hq. apply not_elem_of_cons in Hq as [Hne Hq].
        now apply Hother.
    + assert (Heq : for_each cleanup_entry ((proc, u) :: l) w
                    = (Raise (PyError "dangling reference"), w))
        by (cbn [for_each];
            now rewrite (bind_Raise _ _ _ _ _ (cleanup_entry_dangling _ _ _ Ho))).
      rewrite Heq. cbn [snd]. repeat split; eauto.
Qed.

(** X9. [cleanup()] works on the processes of the registry and on nothing
    else: environment, helpers, sessions and the registry itself are as
    before, every handle still refers to a process of the same pid, and a
    handle that is not in the registry is not touched at all. *)
Theorem cleanup_touches_only_registered w :
  environ (cleanup w).2 = environ w /\
  daily_helpers (cleanup w).2 = daily_helpers w /\
  sessions (cleanup w).2 = sessions w /\
  bot_procs (cleanup w).2 = bot_procs w /\
  (forall q o, objects w !! q = Some o ->
     exists o', objects (cleanup w).2 !! q = Some o' /\ pid o' = pid o) /\
  (forall q, q ∉ handles (bot_procs w) ->
     objects (cleanup w).2 !! q = objects w !! q).
Proof.
  rewrite cleanup_unfold.
  destruct (for_each_cleanup_effect (dict_values (bot_procs w)) w)
    as (He & Hd & Hs & Hk & Ho).
  destruct (for_each_cleanup_frame (dict_values (bot_procs w)) w) as [Hb _].
  repeat split; try assumption.
  - intros q o Hq. destruct (Hk q o Hq) as (o' & Hq' & Hp & _). now exists o'.
  - intros q Hq. apply Ho. now rewrite handles_values.
Qed.

Lemma flat_map_ext_elem {A B} (f g : A -> list B) l :
  (forall a, a ∈ l -> f a = g a) -> flat_map f l = flat_map g l.
Proof.
  induction l as [| a l IH]; intros H; [reflexivity |].
  cbn [flat_map]. rewrite (H a) by (apply elem_of_cons; now left).
  rewrite IH; [reflexivity |]. intros b Hb. apply H. apply elem_of_cons; now right.
Qed.

(** The objects after one turn of the loop, against those before. *)
Lemma settled_objects proc o o' evs w :
  objects w !! proc = Some o ->
  pid o' = pid o -> will_exit o' = will_exit o ->
  let w1 := after evs (set_objects (<[proc := o']> (objects w)) w) in
  (forall q o0, objects w !! q = Some o0 ->
     exists o1, objects w1 !! q = Some o1 /\ pid o1 = pid o0 /\ will_exit o1 = will_exit o0) /\
  (forall q, q <> proc -> objects w1 !! q = objects w !! q) /\
  (forall q, is_Some (objects w !! q) -> is_Some (objects w1 !! q)).
Proof.
  intros Ho Hpid Hwill w1.
  assert (Hlt : (proc < length (objects w))%nat) by (eapply lookup_lt_Some; exact Ho).
  assert (Hobj : objects w1 = <[proc := o']> (objects w))
    by (unfold w1; now rewrite objects_after).
  split; [| split].
  - intros q o0 Hq. rewrite Hobj. destruct (decide (proc = q)) as [<- | Hne].
    + rewrite list_lookup_insert_eq by exact Hlt. exists o'.
      assert (o0 = o) as -> by congruence. now repeat split.
    + rewrite list_lookup_insert_ne by exact Hne. now exists o0.
  - intros q Hne. rewrite Hobj. now apply list_lookup_insert_ne.
  - intros q Hq. apply lookup_lt_is_Some. rewrite Hobj, length_insert.
    now apply lookup_lt_is_Some.
Qed.

(** The loop runs to its end exactly when every process it visits has
    exited or exits once signalled; otherwise it waits forever. *)
Lemma for_each_cleanup_completes (l : list (nat * option string)) :
  forall w,
    Forall (fun e : nat * option string => is_Some (objects w !! e.1)) l ->
    ((for_each cleanup_entry l w).1 = Ret tt \/ (for_each cleanup_entry l w).1 = Hang) /\
    ((for_each cleanup_entry l w).1 = Ret tt <->
     forall e o, e ∈ l -> objects w !! e.1 = Some o -> will_exit o = true).
Proof.
  induction l as [| [proc u] l IH]; intros w Hok.
  - cbn [for_each ret fst]. split; [now left |]. split; [| reflexivity].
    intros _ e o He. now apply elem_of_nil in He.
  - apply Forall_cons in Hok as [[o Ho] Hl]. cbn [fst] in Ho.
    destruct (cleanup_entry_step proc u w o Ho) as (o' & Hstep & Hpid & Hwill & _ & _).
    destruct (settled_objects proc o o' (termination_events o) w Ho Hpid Hwill)
      as (Hkeep & _ & Hvalid).
    set (w1 := after (termination_events o)
                 (set_objects (<[proc := o']> (objects w)) w)) in *.
    destruct (will_exit o) eqn:Hw.
    + assert (Heq : for_each cleanup_entry ((proc, u) :: l) w = for_each cleanup_entry l w1)
        by (cbn [for_each]; now rewrite (bind_Ret _ _ _ _ _ Hstep)).
      rewrite Heq.
      assert (Hl1 : Forall (fun e : nat * option string => is_Some (objects w1 !! e.1)) l).
      { eapply Forall_impl; [exact Hl |]. intros e He. now apply Hvalid. }
      destruct (IH w1 Hl1) as [Hcases Hiff]. split; [exact Hcases |].
      rewrite Hiff. split.
      * intros Hall e o0 He Ho0. apply elem_of_cons in He as [-> | He].
        -- cbn [fst] in Ho0. congruence.
        -- destruct (Hkeep _ _ Ho0) as (o1 & Ho1 & _ & Hw1).
           rewrite <- Hw1. now apply (Hall e o1).
      * intros Hall e o1 He Ho1.
        assert (Hin : e ∈ (proc, u) :: l) by (apply elem_of_cons; now right).
        rewrite Forall_forall in Hl. destruct (Hl e He) as [o0 Ho0].
        destruct (Hkeep _ _ Ho0) as (o1' & Ho1' & _ & Hw1).
        assert (o1' = o1) as -> by congruence.
        rewrite Hw1. now apply (Hall e o0).
    + assert (Heq : for_each cleanup_entry ((proc, u) :: l) w = (Hang, w1))
        by (cbn [for_each]; now rewrite (bind_Hang _ _ _ _ Hstep)).
      rewrite Heq. cbn [fst]. split; [now right |]. split; [discriminate |].
      intros Hall. rewrite (Hall (proc, u) o) in Hw; [discriminate | | exact Ho].
      apply elem_of_cons; now left.
Qed.

(** X10. [cleanup()] never raises; it returns exactly when every registered
    process has exited or exits once it is sent SIGTERM, and waits forever
    as soon as one of them does not. *)
Theorem cleanup_completes_iff w :
  registry_ok w ->
  ((cleanup w).1 = Ret tt \/ (cleanup w).1 = Hang) /\
  ((cleanup w).1 = Ret tt <->
   forall k proc u o,
     (k, (proc, u)) ∈ bot_procs w -> objects w !! proc = Some o -> will_exit o = true).
Proof.
  intros Hok. rewrite cleanup_unfold.
  destruct (for_each_cleanup_completes _ w Hok) as [Hcases Hiff].
  split; [exact Hcases |]. rewrite Hiff. split.
  - intros Hall k proc u o Hin Ho. apply (Hall (proc, u) o); [| exact Ho].
    unfold dict_values. apply list_elem_of_fmap. now exists (k, (proc, u)).
  - intros Hall e o He Ho.
    apply list_elem_of_fmap in He as ([k [proc u]] & -> & He).
    now apply (Hall k proc u o).
Qed.

(** The log of a loop that ran to its end over distinct handles: the
    events of each process, one process after the other. *)
Lemma for_each_cleanup_log (l : list (nat * option string)) :
  forall w w',
    NoDup (map fst l) ->
    for_each cleanup_entry l w = (Ret tt, w') ->
    trace w' = trace w ++ flat_map (fun e : nat * option string => farewell w e.1) l.
Proof.
  induction l as [| [proc u] l IH]; intros w w' Hnd H.
  - injection H as <-. cbn [flat_map]. now rewrite app_nil_r.
  - cbn [for_each] in H. apply bind_inv_Ret in H as ([] & w1 & Hstep & Hrest).
    cbn [map fst] in Hnd. apply NoDup_cons in Hnd as [Hfresh Hnd].
    destruct (objects w !! proc) as [o |] eqn:Ho;
      [| rewrite (cleanup_entry_dangling _ _ _ Ho) in Hstep; discriminate Hstep].
    destruct (cleanup_entry_step proc u w o Ho) as (o' & Hrun & Hpid & Hwill & _ & _).
    destruct (settled_objects proc o o' (termination_events o) w Ho Hpid Hwill)
      as (_ & Hother & _).
    rewrite Hrun in Hstep. destruct (will_exit o); [| discriminate Hstep].
    injection Hstep as <-.
    rewrite (IH _ _ Hnd Hrest), trace_after. cbn [set_objects trace flat_map fst].
    rewrite <- app_assoc. unfold farewell at 2. rewrite Ho. do 2 f_equal.
    apply flat_map_ext_elem. intros e He. unfold farewell.
    rewrite Hother; [reflexivity |].
    intros Heq. apply Hfresh. rewrite <- Heq. apply list_elem_of_fmap. now exists e.
Qed.

(** X11. Processes are shut down one at a time, in the order of the registry:
    when [cleanup()] returns, what it has added to the log is, for each
    record in turn, the signal to its process (unless it had exited) and
    the collection of its exit status (unless the handle had it). *)
Theorem cleanup_log_in_registry_order w w' :
  NoDup (handles (bot_procs w)) ->
  cleanup w = (Ret tt, w') ->
  trace w' = trace w ++ flat_map (farewell w) (handles (bot_procs w)).
Proof.
  rewrite cleanup_unfold. intros Hnd H.
  rewrite (for_each_cleanup_log _ _ _ (eq_ind_r (@NoDup nat) Hnd (handles_values _)) H).
  f_equal. rewrite <- handles_values.
  generalize (dict_values (bot_procs w)) as l. intros l.
  induction l as [| e l IH]; [reflexivity |]. cbn [flat_map map]. now rewrite IH.
Qed.

(** X12. One process that will not exit blocks the shutdown of all that were
    registered after it: [cleanup()] signals it, waits forever, and the
    later processes are never signalled. *)
Theorem cleanup_stops_at_stuck_process w d1 k proc u d2 o :
  NoDup (handles (bot_procs w)) ->
  bot_procs w = d1 ++ (k, (proc, u)) :: d2 ->
  (forall q, q ∈ handles d1 ->
     exists o1, objects w !! q = Some o1 /\ will_exit o1 = true) ->
  objects w !! proc = Some o -> will_exit o = false ->
  exists w',
    cleanup w = (Hang, w') /\
    trace w' = trace w ++ flat_map (farewell w) (handles d1) ++ [EvKill (pid o)] /\
    forall q, q ∉ handles d1 -> objects w' !! q = objects w !! q.
Proof.
  intros Hnd Hsplit Hbefore Ho Hw.
  assert (Hnd' : NoDup (handles d1) /\ proc ∉ handles d1).
  { rewrite Hsplit in Hnd. unfold handles in Hnd. rewrite map_app in Hnd.
    apply NoDup_app in Hnd as (Hnd1 & Hdisj & _). split; [exact Hnd1 |].
    intros Hin. apply (Hdisj proc Hin). cbn [map snd fst]. apply elem_of_cons. now left. }
  destruct Hnd' as [Hnd1 Hfresh].
  destruct (for_each_cleanup_completes (dict_values d1) w) as [_ Hiff].
  { apply Forall_forall. intros e He.
    destruct (Hbefore e.1) as (o1 & Ho1 & _); [| now rewrite Ho1].
    rewrite <- handles_values. apply list_elem_of_fmap. now exists e. }
  destruct (for_each cleanup_entry (dict_values d1) w) as [r1 w1] eqn:Hrun1.
  cbn [fst] in Hiff.
  assert (r1 = Ret tt) as ->.
  { apply Hiff. intros e o1 He Ho1.
    destruct (Hbefore e.1) as (o1' & Ho1' & Hw1).
    - rewrite <- handles_values. apply list_elem_of_fmap. now exists e.
    - congruence. }
  destruct (for_each_cleanup_effect (dict_values d1) w) as (_ & _ & _ & _ & Hother).
  rewrite Hrun1 in Hother. cbn [snd] in Hother. rewrite handles_values in Hother.
  assert (Ho1 : objects w1 !! proc = Some o) by (rewrite (Hother proc Hfresh); exact Ho).
  destruct (cleanup_entry_step proc u w1 o Ho1) as (o' & Hstep & _ & _ & _ & Hsame).
  rewrite Hw in Hstep. rewrite (Hsame Hw) in Hstep.
  rewrite list_insert_id, set_objects_id in Hstep by exact Ho1.
  assert (Hev : termination_events o = [EvKill (pid o)]).
  { unfold will_exit in Hw. unfold termination_events.
    destruct (returncode o); [discriminate |].
    destruct (child o) as [[c |] [c' |] | c]; try discriminate; reflexivity. }
  rewrite Hev in Hstep.
  exists (after [EvKill (pid o)] w1). split; [| split].
  - rewrite cleanup_unfold, Hsplit. unfold dict_values. rewrite map_app. cbn [map snd].
    rewrite for_each_app. rewrite (bind_Ret _ _ _ _ _ Hrun1).
    cbn [for_each]. now rewrite (bind_Hang _ _ _ _ Hstep).
  - rewrite trace_after.
    rewrite (for_each_cleanup_log _ _ _ (eq_ind_r (@NoDup nat) Hnd1 (handles_values _)) Hrun1).
    rewrite <- app_assoc. do 2 f_equal. rewrite <- handles_values.
    generalize (dict_values d1) as l. intros l.
    induction l as [| e l IH]; [reflexivity |]. cbn [flat_map map]. now rewrite IH.
  - intros q Hq. rewrite objects_after. now apply Hother.
Qed.

(** ** What holds along every run of the service *)

Lemma dict_get_elem {V} k (v : V) d : dict_get k d = Some v -> (k, v) ∈ d.
Proof.
  induction d as [| [k' v'] d IH]; cbn [dict_get]; [discriminate |].
  destruct (decide (k' = k)) as [-> | Hne].
  - intros H. injection H as ->. apply elem_of_cons. now left.
  - intros H. apply elem_of_cons. right. now apply IH.
Qed.

Lemma dict_set_elem {V} k (v : V) d x :
  x ∈ dict_set k v d -> x = (k, v) \/ x ∈ d.
Proof.
  induction d as [| [k' v'] d IH]; cbn [dict_set].
  - intros H. apply list_elem_of_singleton in H. now left.
  - destruct (decide (k' = k)) as [-> | Hne]; intros H;
      apply elem_of_cons in H as [H | H].
    + now left.
    + right. apply elem_of_cons. now right.
    + right. apply elem_of_cons. now left.
    + destruct (IH H) as [Hx | Hx]; [now left |]. right. apply elem_of_cons. now right.
Qed.

Lemma dict_set_keys_NoDup {V} k (v : V) d :
  NoDup (map fst d) -> NoDup (map fst (dict_set k v d)).
Proof.
  intros Hnd. destruct (decide (k ∈ map fst d)) as [Hin | Hout].
  - now rewrite dict_set_keys_present.
  - rewrite dict_set_keys_fresh by exact Hout.
    apply NoDup_app. split; [exact Hnd |]. split; [| apply NoDup_singleton].
    intros x Hx Hx'. apply list_elem_of_singleton in Hx'. congruence.
Qed.

Lemma dict_set_NoDup_map {V B} (f : Z * V -> B) k (v : V) d :
  NoDup (map f d) -> f (k, v) ∉ map f d -> NoDup (map f (dict_set k v d)).
Proof.
  induction d as [| [k' v'] d IH]; cbn [dict_set map]; intros Hnd Hnew.
  - apply NoDup_singleton.
  - apply NoDup_cons in Hnd as [Hhead Hnd].
    apply not_elem_of_cons in Hnew as [Hne Hnew].
    destruct (decide (k' = k)) as [-> | Hk]; cbn [map]; apply NoDup_cons.
    + now split.
    + split; [| now apply IH].
      intros Hin. apply list_elem_of_fmap in Hin as (x & Hfx & Hx).
      destruct (dict_set_elem _ _ _ _ Hx) as [-> | Hx']; [congruence |].
      apply Hhead. apply list_elem_of_fmap. now exists x.
Qed.

Lemma registry_inv_ok w : registry_inv w -> registry_ok w.
Proof.
  intros (_ & _ & Hrec). unfold registry_ok. apply Forall_forall. intros e He.
  apply list_elem_of_fmap in He as ([k [proc u]] & -> & He).
  destruct (Hrec k proc u He) as (o & Ho & _). cbn [snd fst]. now rewrite Ho.
Qed.

(** The invariant only looks at the registry and at the pids behind the
    handles. *)
Lemma registry_inv_same w w' :
  bot_procs w' = bot_procs w ->
  (forall q o, objects w !! q = Some o ->
     exists o', objects w' !! q = Some o' /\ pid o' = pid o) ->
  registry_inv w -> registry_inv w'.
Proof.
  intros Hbp Hobj (Hk & Hh & Hrec). unfold registry_inv. rewrite Hbp.
  split; [exact Hk |]. split; [exact Hh |].
  intros k proc u Hin. destruct (Hrec k proc u Hin) as (o & Ho & Hp & Hu).
  destruct (Hobj proc o Ho) as (o' & Ho' & Hp'). exists o'. repeat split; congruence.
Qed.

Lemma registry_inv_cleanup w : registry_inv w -> registry_inv (cleanup w).2.
Proof.
  apply registry_inv_same.
  - rewrite cleanup_unfold.
    now destruct (for_each_cleanup_frame (dict_values (bot_procs w)) w).
  - intros q o Hq. rewrite cleanup_unfold.
    destruct (for_each_cleanup_effect (dict_values (bot_procs w)) w) as (_ & _ & _ & Hk & _).
    destruct (Hk q o Hq) as (o' & Ho' & Hp & _). now exists o'.
Qed.

Lemma registry_inv_connect env w : registry_inv w -> registry_inv (POST_connect env w).2.
Proof.
  intros Hinv. pose proof (POST_connect_outcome env w) as Hout.
  destruct (POST_connect env w) as [r w']. cbn [fst snd] in *.
  destruct Hout as [| | | | | | | | | | rest room token p c _ _ Hu _ _ _];
    try (revert Hinv; apply registry_inv_same; [reflexivity |];
         unfold_worlds; now eauto).
  destruct Hinv as (Hk & Hh & Hrec). unfold registry_inv. unfold_worlds.
  assert (Hold : forall q, q ∈ handles (bot_procs w) -> (q < length (objects w))%nat).
  { intros q Hq. apply list_elem_of_fmap in Hq as ([k [proc u]] & -> & Hin).
    destruct (Hrec k proc u Hin) as (o & Ho & _). cbn [snd fst].
    eapply lookup_lt_Some. exact Ho. }
  split; [now apply dict_set_keys_NoDup |]. split.
  - unfold handles. apply dict_set_NoDup_map; [exact Hh |]. cbn [snd fst].
    intros Hin. apply Hold in Hin. lia.
  - intros k proc u Hin. destruct (dict_set_elem _ _ _ _ Hin) as [Heq | Hin'].
    + injection Heq as -> -> ->.
      exists {| pid := p; returncode := None; child := c |}.
      split; [now apply list_lookup_middle |]. now split.
    + destruct (Hrec k proc u Hin') as (o & Ho & Hp & Hu'). exists o.
      split; [now apply lookup_app_l_Some |]. now split.
Qed.

Lemma registry_inv_child_exits proc code w :
  registry_inv w -> registry_inv (child_exits proc code w).
Proof.
  apply registry_inv_same; unfold child_exits.
  - now destruct (objects w !! proc).
  - intros q o Hq. destruct (objects w !! proc) as [o0 |] eqn:Ho; [| now exists o].
    cbn [set_objects objects]. destruct (decide (proc = q)) as [<- | Hne].
    + rewrite list_lookup_insert_eq by (eapply lookup_lt_Some; exact Ho).
      eexists. split; [reflexivity |]. cbn [pid]. congruence.
    + rewrite list_lookup_insert_ne by exact Hne. now exists o.
Qed.

Lemma registry_inv_step env op w : registry_inv w -> registry_inv (step env op w).
Proof.
  destruct op as [| s | | | | | proc code]; cbn [step].
  - apply registry_inv_same; [reflexivity | now eauto].
  - intros Hinv. unfold lifespan_shutdown.
    rewrite (bind_Ret _ _ w tt (set_sessions (<[s := false]> (sessions w)) w)) by reflexivity.
    rewrite (bind_Ret _ _ _ tt
               (log (EvSessionClose s) (set_sessions (<[s := false]> (sessions w)) w)))
      by reflexivity.
    apply registry_inv_cleanup. revert Hinv.
    apply registry_inv_same; [reflexivity | now eauto].
  - apply registry_inv_cleanup.
  - apply registry_inv_same; [reflexivity | now eauto].
  - apply registry_inv_same; [reflexivity | now eauto].
  - apply registry_inv_connect.
  - apply registry_inv_child_exits.
Qed.

Lemma registry_inv_initial vars : registry_inv (initial vars).
Proof.
  split; [apply NoDup_nil_2 |]. split; [apply NoDup_nil_2 |].
  intros k proc u Hin. now apply elem_of_nil in Hin.
Qed.

Lemma registry_inv_run env ops w : registry_inv w -> registry_inv (run env ops w).
Proof.
  unfold run. revert w. induction ops as [| op ops IH]; intros w H; [exact H |].
  cbn [fold_left]. apply IH. now apply registry_inv_step.
Qed.

(** X13. In every state the service can reach - by startup, requests, processes
    exiting on their own, [cleanup()] and shutdown, in any order and any
    number - the registry has no pid twice and no handle twice, every
    record sits under the pid of its own handle, and every recorded room
    URL is a non-empty string. *)
Theorem registry_inv_reachable env vars ops :
  registry_inv (run env ops (initial vars)) /\
  registry_ok (run env ops (initial vars)).
Proof.
  assert (H : registry_inv (run env ops (initial vars)))
    by (apply registry_inv_run, registry_inv_initial).
  split; [exact H | now apply registry_inv_ok].
Qed.

Lemma keys_step env op w :
  exists more, keys (bot_procs (step env op w)) = keys (bot_procs w) ++ more.
Proof.
  assert (Hsame : forall w', bot_procs w' = bot_procs w ->
            exists more, keys (bot_procs w') = keys (bot_procs w) ++ more).
  { intros w' ->. exists []. now rewrite app_nil_r. }
  destruct op as [| s | | | | | proc code]; cbn [step].
  - now apply Hsame.
  - apply Hsame. unfold lifespan_shutdown.
    rewrite (bind_Ret _ _ w tt (set_sessions (<[s := false]> (sessions w)) w)) by reflexivity.
    rewrite (bind_Ret _ _ _ tt
               (log (EvSessionClose s) (set_sessions (<[s := false]> (sessions w)) w)))
      by reflexivity.
    rewrite cleanup_unfold.
    now destruct (for_each_cleanup_frame
                    (dict_values (bot_procs (log (EvSessionClose s)
                       (set_sessions (<[s := false]> (sessions w)) w))))
                    (log (EvSessionClose s) (set_sessions (<[s := false]> (sessions w)) w))).
  - apply Hsame. rewrite cleanup_unfold.
    now destruct (for_each_cleanup_frame (dict_values (bot_procs w)) w).
  - now apply Hsame.
  - now apply Hsame.
  - pose proof (POST_connect_outcome env w) as Hout.
    destruct (POST_connect env w) as [r w']. cbn [fst snd] in *.
    destruct Hout; try (apply Hsame; unfold_worlds; reflexivity).
    unfold_worlds. unfold keys. destruct (decide (p ∈ map fst (bot_procs w))).
    + exists []. rewrite dict_set_keys_present by assumption. now rewrite app_nil_r.
    + exists [p]. now rewrite dict_set_keys_fresh.
  - apply Hsame. unfold child_exits. now destruct (objects w !! proc).
Qed.

(** X14. Nothing ever leaves the registry, shutdown included: along any run the
    pids registered before are still there afterwards, in the same order,
    with the new ones after them. *)
Theorem registry_only_grows env ops w :
  exists more, keys (bot_procs (run env ops w)) = keys (bot_procs w) ++ more.
Proof.
  unfold run. revert w. induction ops as [| op ops IH]; intros w.
  - exists []. cbn [fold_left]. now rewrite app_nil_r.
  - cbn [fold_left]. destruct (IH (step env op w)) as [more2 ->].
    destruct (keys_step env op w) as [more1 ->].
    exists (more1 ++ more2). now rewrite app_assoc.
Qed.

Lemma dict_get_handle k d proc (u : option string) :
  dict_get k d = Some (proc, u) -> proc ∈ handles d.
Proof.
  intros H. apply dict_get_elem in H. unfold handles.
  apply list_elem_of_fmap. now exists (k, (proc, u)).
Qed.

Lemma dict_set_drops_handle k d old (u0 : option string) new u :
  NoDup (handles d) -> dict_get k d = Some (old, u0) -> new <> old ->
  old ∉ handles (dict_set k (new, u) d).
Proof.
  unfold handles.
  induction d as [| [k' [h' u']] d IH]; cbn [dict_get dict_set map]; [discriminate |].
  intros Hnd Hget Hne. apply NoDup_cons in Hnd as [Hhead Hnd]. cbn [snd fst] in Hhead.
  destruct (decide (k' = k)) as [-> | Hk]; cbn [map snd fst].
  - injection Hget as -> ->. apply not_elem_of_cons. split; [congruence | exact Hhead].
  - apply not_elem_of_cons. split; [| now apply IH].
    intros ->. apply Hhead. now apply (dict_get_handle k d h' u0).
Qed.

(** X15. The price of the silent overwrite: when a new process is registered
    under a pid that is in the registry already, the handle that was there
    is in the registry no more, and a later [cleanup()] does nothing to its
    process - it is neither signalled nor waited for. *)
Theorem overwritten_process_is_never_terminated env w r w' o old u0 :
  registry_inv w ->
  POST_connect env w = (Some r, w') -> status r = 200 ->
  objects w' !! length (objects w) = Some o ->
  dict_get (pid o) (bot_procs w) = Some (old, u0) ->
  (old ∉ handles (bot_procs w')) /\
  objects (cleanup w').2 !! old = objects w !! old.
Proof.
  intros (Hk & Hh & Hrec) H Hs Hnew Hget.
  pose proof (POST_connect_outcome env w) as Hout. rewrite H in Hout.
  cbn [fst snd] in Hout.
  inversion Hout; subst; try discriminate Hs. clear Hout.
  unfold_worlds. rewrite list_lookup_middle in Hnew by reflexivity.
  injection Hnew as <-. cbn [pid] in Hget.
  destruct (Hrec _ _ _ (dict_get_elem _ _ _ Hget)) as (o0 & Ho0 & _).
  assert (Hlt : (old < length (objects w))%nat) by (eapply lookup_lt_Some; exact Ho0).
  assert (Hgone : old ∉ handles (dict_set p (length (objects w), url room) (bot_procs w))).
  { eapply dict_set_drops_handle; [exact Hh | exact Hget | lia]. }
  split; [exact Hgone |].
  rewrite cleanup_unfold.
  match goal with
  | |- objects (for_each cleanup_entry ?l ?w1).2 !! _ = _ =>
      destruct (for_each_cleanup_effect l w1) as (_ & _ & _ & _ & Hother)
  end.
  rewrite Hother by (rewrite handles_values; exact Hgone).
  unfold_worlds. now apply lookup_app_l.
Qed.

(** ** Startup and shutdown *)

Lemma lifespan_shutdown_unfold s w :
  lifespan_shutdown s w =
  cleanup (log (EvSessionClose s) (set_sessions (<[s := false]> (sessions w)) w)).
Proof.
  unfold lifespan_shutdown.
  rewrite (bind_Ret _ _ w tt (set_sessions (<[s := false]> (sessions w)) w)) by reflexivity.
  now rewrite (bind_Ret _ _ _ tt
                 (log (EvSessionClose s) (set_sessions (<[s := false]> (sessions w)) w)))
    by reflexivity.
Qed.

Section Lifespan.

Variable env : Env.

(** X8. Startup is what makes [POST /connect] work: whatever the state before,
    after it there is a ["rest"] helper holding the key and the URL of the
    environment (the empty key and the public Daily URL when they are not
    set), and a [POST /connect] gets as far as asking the Daily API for a
    room. *)
Theorem connect_after_startup w :
  exists rest evs,
    daily_helpers (lifespan_startup w).2 !! "rest" = Some rest /\
    daily_api_key rest = default "" (environ w !! "DAILY_API_KEY") /\
    daily_api_url rest = default "https://api.daily.co/v1" (environ w !! "DAILY_API_URL") /\
    trace (POST_connect env (lifespan_startup w).2).2 =
      trace (lifespan_startup w).2
        ++ [EvPrint "Creating room for RTVI connection"; EvCreateRoom] ++ evs.
Proof.
  set (w1 := (lifespan_startup w).2).
  assert (Hrest : daily_helpers w1 !! "rest" =
            Some {| daily_api_key := default "" (environ w !! "DAILY_API_KEY");
                    daily_api_url :=
                      default "https://api.daily.co/v1" (environ w !! "DAILY_API_URL");
                    aiohttp_session := length (sessions w) |}).
  { unfold w1. cbn. apply lookup_insert_eq. }
  eexists. 
  pose proof (POST_connect_outcome env w1) as Hout.
  destruct (POST_connect env w1) as [r w']. cbn [fst snd] in *.
  destruct Hout; try congruence; unfold_worlds; rewrite <- ?app_assoc;
    eexists; (split; [exact Hrest |]); (split; [reflexivity |]);
    (split; [reflexivity |]); cbn [app]; try reflexivity;
    now rewrite app_nil_r.
Qed.

End Lifespan.

(** X16. A normal shutdown closes the session that startup opened, and closes it
    before any process is signalled: what is left of [lifespan] after that
    is [cleanup()].  Whether [cleanup()] returns or waits forever, the
    session is closed and the registry is what the requests left. *)
Theorem lifespan_closes_session_then_cleans serving w w2 :
  serving (lifespan_startup w).2 = (Ret tt, w2) ->
  sessions w2 = sessions (lifespan_startup w).2 ->
  exists closed,
    lifespan serving w = cleanup closed /\
    sessions closed = sessions w ++ [false] /\
    trace closed = trace w2 ++ [EvSessionClose (length (sessions w))] /\
    bot_procs closed = bot_procs w2 /\ objects closed = objects w2 /\
    sessions (lifespan serving w).2 = sessions w ++ [false] /\
    bot_procs (lifespan serving w).2 = bot_procs w2.
Proof.
  intros Hserve Hsess.
  set (closed := log (EvSessionClose (length (sessions w)))
                   (set_sessions (<[length (sessions w) := false]> (sessions w2)) w2)).
  assert (Hclosed : sessions closed = sessions w ++ [false]).
  { unfold closed. cbn [log set_sessions sessions]. rewrite Hsess. cbn.
    rewrite insert_app_r_alt by lia. now rewrite Nat.sub_diag. }
  assert (Hrun : lifespan serving w = cleanup closed).
  { unfold lifespan.
    rewrite (bind_Ret _ _ w (length (sessions w)) w) by reflexivity.
    rewrite (bind_Ret _ _ w tt (lifespan_startup w).2) by reflexivity.
    rewrite (bind_Ret _ _ _ tt w2) by exact Hserve.
    apply lifespan_shutdown_unfold. }
  exists closed. split; [exact Hrun |]. split; [exact Hclosed |].
  split; [reflexivity |]. split; [reflexivity |]. split; [reflexivity |].
  rewrite Hrun, cleanup_unfold.
  destruct (for_each_cleanup_effect (dict_values (bot_procs closed)) closed)
    as (_ & _ & -> & _ & _).
  destruct (for_each_cleanup_frame (dict_values (bot_procs closed)) closed) as [-> _].
  now split.
Qed.

(** X17. [lifespan] has no [try]/[finally]: when what runs inside the context
    raises or never returns, none of the shutdown code runs - the session
    is not closed and no process is terminated. *)
Theorem lifespan_skips_shutdown_on_error serving w r w2 :
  serving (lifespan_startup w).2 = (r, w2) -> r <> Ret tt ->
  lifespan serving w = (r, w2).
Proof.
  intros Hserve Hr. unfold lifespan.
  rewrite (bind_Ret _ _ w (length (sessions w)) w) by reflexivity.
  rewrite (bind_Ret _ _ w tt (lifespan_startup w).2) by reflexivity.
  destruct r as [[] | e |]; [contradiction | |].
  - now apply bind_Raise.
  - now apply bind_Hang.
Qed.

(** ** GET / once more *)

(** X18. [google_api_configured] follows [GOOGLE_API_KEY] the way
    [daily_api_configured] follows [DAILY_API_KEY]: [true] exactly for a
    non-empty value. *)
Theorem root_reports_google_key w :
  exists r,
    GET_root w = (Some r, w) /\
    (body_field "google_api_configured" r = Some (JBool true) <->
     exists key, environ w !! "GOOGLE_API_KEY" = Some key /\ key <> "").
Proof.
  eexists. split; [reflexivity |].
  unfold body_field. cbn [content JSONResponse assoc].
  repeat (rewrite decide_False by discriminate). rewrite decide_True by reflexivity.
  destruct (environ w !! "GOOGLE_API_KEY") as [[| a key] |]; cbn [truthy]; split.
  - discriminate.
  - intros (key & H & Hne). congruence.
  - intros _. eexists. split; [reflexivity | discriminate].
  - reflexivity.
  - discriminate.
  - intros (key & H & _). discriminate H.
Qed.

(** X19. The payload of [GET /] depends on the two environment variables and on
    nothing else: not on whether startup has run, not on the registry, not
    on any process.  It says ["ok"] in every state. *)
Theorem root_ignores_service_state w1 w2 :
  environ w1 !! "DAILY_API_KEY" = environ w2 !! "DAILY_API_KEY" ->
  environ w1 !! "GOOGLE_API_KEY" = environ w2 !! "GOOGLE_API_KEY" ->
  (GET_root w1).1 = (GET_root w2).1 /\
  exists r, (GET_root w1).1 = Some r /\ body_field "status" r = Some (JStr "ok").
Proof.
  intros Hd Hg. unfold GET_root, serve, health_check, getenv, inspect, bind, ret.
  cbn [fst respond]. rewrite Hd, Hg. split; [reflexivity |].
  eexists. split; reflexivity.
Qed.

(** ** These theorems at work on the sample runs *)

Lemma connect_before_startup_witness :
  daily_helpers (initial ∅) !! "rest" = None /\
  POST_connect scenario_env (initial ∅) =
    (Some internal_error, log (EvPrint "Creating room for RTVI connection") (initial ∅)).
Proof.
  assert (H : daily_helpers (initial ∅) !! "rest" = None) by (vm_compute; reflexivity).
  split; [exact H |]. exact (connect_before_startup scenario_env (initial ∅) H).
Defined.

Lemma connect_create_room_raises_witness :
  daily_helpers started !! "rest" = Some default_helper /\
  POST_connect room_error_env started = (Some internal_error, room_asked started).
Proof.
  assert (H : daily_helpers started !! "rest" = Some default_helper)
    by (vm_compute; reflexivity).
  split; [exact H |].
  exact (connect_create_room_raises room_error_env started default_helper
           "Unable to create room" H eq_refl).
Defined.

Lemma connect_get_token_raises_witness :
  daily_helpers started !! "rest" = Some default_helper /\
  POST_connect token_error_env started =
    (Some internal_error, token_asked (Some "https://x.example/room1") started).
Proof.
  assert (H : daily_helpers started !! "rest" = Some default_helper)
    by (vm_compute; reflexivity).
  split; [exact H |].
  exact (connect_get_token_raises token_error_env started default_helper
           {| url := Some "https://x.example/room1" |} "Failed to get meeting token"
           H eq_refl eq_refl eq_refl).
Defined.

Lemma connect_unanswered_witness :
  daily_helpers started !! "rest" = Some default_helper /\
  rest_get_token silent_token_env default_helper
    (trace (token_asked (Some "https://x.example/room1") started))
    (Some "https://x.example/room1") = NoAnswer /\
  os_spawn blocked_spawn_env
    (trace (spawning blocked_spawn_env (Some "https://x.example/room1") (Some "tok123")
              started))
    [bot_command "bot-gemini" (Some "https://x.example/room1") (Some "tok123")]
    (module_dir blocked_spawn_env) = SpawnBlocked /\
  ((POST_connect silent_token_env started).1 = None /\
   bot_procs (POST_connect silent_token_env started).2 = bot_procs started /\
   objects (POST_connect silent_token_env started).2 = objects started) /\
  ((POST_connect blocked_spawn_env started).1 = None /\
   bot_procs (POST_connect blocked_spawn_env started).2 = bot_procs started /\
   objects (POST_connect blocked_spawn_env started).2 = objects started).
Proof.
  assert (H : daily_helpers started !! "rest" = Some default_helper)
    by (vm_compute; reflexivity).
  split; [exact H |]. split; [reflexivity |]. split; [reflexivity |]. split.
  - apply (connect_unanswered silent_token_env started default_helper H).
    right. left. exists {| url := Some "https://x.example/room1" |}.
    repeat split; reflexivity.
  - apply (connect_unanswered blocked_spawn_env started default_helper H).
    right. right. exists {| url := Some "https://x.example/room1" |}, (Some "tok123").
    repeat split; reflexivity.
Defined.

Lemma connect_all_or_nothing_witness :
  POST_connect no_spawn_env started =
    (Some (error_response
             "Failed to start subprocess: [Errno 11] Resource temporarily unavailable"),
     spawning no_spawn_env (Some "https://x.example/room1") (Some "tok123") started) /\
  ((exists resp,
      Some (error_response
              "Failed to start subprocess: [Errno 11] Resource temporarily unavailable")
        = Some resp /\ status resp = 200) \/
   ((Some (error_response
             "Failed to start subprocess: [Errno 11] Resource temporarily unavailable")
       = None \/
     exists resp,
       Some (error_response
               "Failed to start subprocess: [Errno 11] Resource temporarily unavailable")
         = Some resp /\ status resp = 500) /\
    bot_procs (spawning no_spawn_env (Some "https://x.example/room1") (Some "tok123")
                 started) = bot_procs started /\
    objects (spawning no_spawn_env (Some "https://x.example/room1") (Some "tok123")
               started) = objects started)).
Proof.
  assert (H : POST_connect no_spawn_env started =
    (Some (error_response
             "Failed to start subprocess: [Errno 11] Resource temporarily unavailable"),
     spawning no_spawn_env (Some "https://x.example/room1") (Some "tok123") started))
    by (vm_compute; reflexivity).
  split; [exact H |].
  exact (connect_all_or_nothing no_spawn_env started _ _ H).
Defined.

Lemma connect_registry_order_witness :
  POST_connect scenario_env started = (Some scenario_response, one_session) /\
  status scenario_response = 200 /\
  exists o,
    objects one_session !! length (objects started) = Some o /\
    (pid o ∉ keys (bot_procs started) ->
     keys (bot_procs one_session) = keys (bot_procs started) ++ [pid o]) /\
    (pid o ∈ keys (bot_procs started) ->
     keys (bot_procs one_session) = keys (bot_procs started)).
Proof.
  assert (H : POST_connect scenario_env started = (Some scenario_response, one_session))
    by (vm_compute; reflexivity).
  split; [exact H |]. split; [reflexivity |].
  exact (connect_registry_order scenario_env started scenario_response one_session
           H eq_refl).
Defined.

Lemma cleanup_completes_iff_witness :
  registry_ok two_sessions /\
  ((cleanup two_sessions).1 = Ret tt \/ (cleanup two_sessions).1 = Hang) /\
  ((cleanup two_sessions).1 = Ret tt <->
   forall k proc u o,
     (k, (proc, u)) ∈ bot_procs two_sessions ->
     objects two_sessions !! proc = Some o -> will_exit o = true).
Proof.
  assert (Hok : registry_ok two_sessions).
  { unfold registry_ok. vm_compute. repeat constructor; eexists; reflexivity. }
  split; [exact Hok |]. exact (cleanup_completes_iff two_sessions Hok).
Defined.

Lemma cleanup_log_in_registry_order_witness :
  NoDup (handles (bot_procs two_sessions)) /\
  cleanup two_sessions = (Ret tt, (cleanup two_sessions).2) /\
  trace (cleanup two_sessions).2 =
    trace two_sessions ++ flat_map (farewell two_sessions) (handles (bot_procs two_sessions)) /\
  flat_map (farewell two_sessions) (handles (bot_procs two_sessions)) =
    [EvKill 11; EvReap 11 (-15); EvReap 12 1].
Proof.
  assert (Hnd : NoDup (handles (bot_procs two_sessions))).
  { apply (bool_decide_unpack _). vm_compute. exact I. }
  assert (H : cleanup two_sessions = (Ret tt, (cleanup two_sessions).2))
    by (vm_compute; reflexivity).
  split; [exact Hnd |]. split; [exact H |].
  split; [exact (cleanup_log_in_registry_order two_sessions _ Hnd H) |].
  vm_compute. reflexivity.
Defined.

Lemma cleanup_stops_at_stuck_process_witness :
  NoDup (handles (bot_procs stuck_service)) /\
  will_exit {| pid := 12; returncode := None; child := stubborn_child |} = false /\
  flat_map (farewell stuck_service) (handles [ (11, (0%nat, Some "https://x.example/a")) ])
    = [EvKill 11; EvReap 11 (-15)] /\
  exists w',
    cleanup stuck_service = (Hang, w') /\
    trace w' =
      trace stuck_service
        ++ flat_map (farewell stuck_service)
             (handles [ (11, (0%nat, Some "https://x.example/a")) ])
        ++ [EvKill 12] /\
    forall q, q ∉ handles [ (11, (0%nat, Some "https://x.example/a")) ] ->
              objects w' !! q = objects stuck_service !! q.
Proof.
  assert (Hnd : NoDup (handles (bot_procs stuck_service))).
  { apply (bool_decide_unpack _). vm_compute. exact I. }
  split; [exact Hnd |]. split; [reflexivity |]. split; [reflexivity |].
  refine (cleanup_stops_at_stuck_process stuck_service
            [ (11, (0%nat, Some "https://x.example/a")) ] 12 1%nat
            (Some "https://x.example/b") [ (13, (2%nat, Some "https://x.example/c")) ]
            {| pid := 12; returncode := None; child := stubborn_child |}
            Hnd eq_refl _ eq_refl eq_refl).
  intros q Hq. apply list_elem_of_singleton in Hq. rewrite Hq.
  eexists. split; reflexivity.
Defined.

Lemma overwritten_process_is_never_terminated_witness :
  registry_inv one_session /\
  POST_connect scenario_env one_session = (Some scenario_response, same_pid_again) /\
  status scenario_response = 200 /\
  objects same_pid_again !! length (objects one_session)
    = Some {| pid := 4242; returncode := None; child := bot_child |} /\
  dict_get 4242 (bot_procs one_session) = Some (0%nat, Some "https://x.example/room1") /\
  (0%nat ∉ handles (bot_procs same_pid_again)) /\
  objects (cleanup same_pid_again).2 !! 0%nat = objects one_session !! 0%nat.
Proof.
  assert (Hinv : registry_inv one_session).
  { change (registry_inv (run scenario_env [OpStartup; OpConnect] (initial ∅))).
    apply registry_inv_run, registry_inv_initial. }
  assert (H : POST_connect scenario_env one_session
              = (Some scenario_response, same_pid_again)) by (vm_compute; reflexivity).
  assert (Hnew : objects same_pid_again !! length (objects one_session)
                 = Some {| pid := 4242; returncode := None; child := bot_child |})
    by (vm_compute; reflexivity).
  assert (Hget : dict_get 4242 (bot_procs one_session)
                 = Some (0%nat, Some "https://x.example/room1"))
    by (vm_compute; reflexivity).
  split; [exact Hinv |]. split; [exact H |]. split; [reflexivity |].
  split; [exact Hnew |]. split; [exact Hget |].
  exact (overwritten_process_is_never_terminated scenario_env one_session
           scenario_response same_pid_again
           {| pid := 4242; returncode := None; child := bot_child |}
           0%nat (Some "https://x.example/room1") Hinv H eq_refl Hnew Hget).
Defined.

Lemma lifespan_closes_session_then_cleans_witness :
  one_request scenario_env (lifespan_startup (initial ∅)).2 = (Ret tt, one_session) /\
  sessions one_session = sessions (lifespan_startup (initial ∅)).2 /\
  exists closed,
    lifespan (one_request scenario_env) (initial ∅) = cleanup closed /\
    sessions closed = sessions (initial ∅) ++ [false] /\
    trace closed = trace one_session ++ [EvSessionClose (length (sessions (initial ∅)))] /\
    bot_procs closed = bot_procs one_session /\ objects closed = objects one_session /\
    sessions (lifespan (one_request scenario_env) (initial ∅)).2
      = sessions (initial ∅) ++ [false] /\
    bot_procs (lifespan (one_request scenario_env) (initial ∅)).2 = bot_procs one_session.
Proof.
  assert (H : one_request scenario_env (lifespan_startup (initial ∅)).2
              = (Ret tt, one_session)) by reflexivity.
  assert (Hs : sessions one_session = sessions (lifespan_startup (initial ∅)).2)
    by (vm_compute; reflexivity).
  split; [exact H |]. split; [exact Hs |].
  exact (lifespan_closes_session_then_cleans (one_request scenario_env) (initial ∅)
           one_session H Hs).
Defined.

Lemma lifespan_skips_shutdown_on_error_witness :
  failing_app (lifespan_startup (initial ∅)).2
    = (Raise (PyError "server error"), (lifespan_startup (initial ∅)).2) /\
  lifespan failing_app (initial ∅)
    = (Raise (PyError "server error"), (lifespan_startup (initial ∅)).2).
Proof.
  assert (H : failing_app (lifespan_startup (initial ∅)).2
              = (Raise (PyError "server error"), (lifespan_startup (initial ∅)).2))
    by reflexivity.
  split; [exact H |].
  refine (lifespan_skips_shutdown_on_error failing_app (initial ∅) _ _ H _).
  discriminate.
Defined.

Lemma root_ignores_service_state_witness :
  environ started !! "DAILY_API_KEY" = environ one_session !! "DAILY_API_KEY" /\
  environ started !! "GOOGLE_API_KEY" = environ one_session !! "GOOGLE_API_KEY" /\
  (GET_root started).1 = (GET_root one_session).1 /\
  exists r, (GET_root started).1 = Some r /\ body_field "status" r = Some (JStr "ok").
Proof.
  assert (Hd : environ started !! "DAILY_API_KEY" = environ one_session !! "DAILY_API_KEY")
    by (vm_compute; reflexivity).
  assert (Hg : environ started !! "GOOGLE_API_KEY" = environ one_session !! "GOOGLE_API_KEY")
    by (vm_compute; reflexivity).
  split; [exact Hd |]. split; [exact Hg |].
  exact (root_ignores_service_state started one_session Hd Hg).
Defined.
